(** * CAS checksum validation and the HMDB / PubMed enrichment drivers

    A shallow embedding of [CAS_verification.py]: the CAS Registry Number
    validator with its table filter, the two HMDB lookups with their
    row-wise drivers, and the resumable PubMed hit counter.

    Python values are modelled as follows.
    - [str] is [string]; characters are the 256 values of [ascii], so the
      model covers byte-valued text (Python's [int] also accepts the
      decimal digits of other scripts, which do not exist here).
    - [int] is [Z].
    - A raised exception is a value of [exn]: its class and its message
      ([str(e)]).  A computation that may raise returns [result A].
    - Network, clock and standard output are an explicit state threaded
      through the effectful functions (section [Effects]).  The [tqdm]
      progress bars only write to standard error and are left out. *)

From Stdlib Require Import ZArith String Ascii List Bool Lia.
From stdpp Require Import base tactics option list strings.

Local Open Scope Z_scope.

(** ** Exceptions *)

Inductive exn_class :=
| IndexError | ValueError | KeyError | AttributeError
| HTTPError | Timeout | RequestException.

Record exn := Raise { exn_class_of : exn_class; exn_msg : string }.

Inductive result (A : Type) : Type :=
| Ok (a : A)
| Raised (e : exn).
Arguments Ok {A} a.
Arguments Raised {A} e.

Definition raise {A} (c : exn_class) (msg : string) : result A :=
  Raised (Raise c msg).

#[global] Instance result_ret : MRet result := fun A a => Ok a.
#[global] Instance result_bind : MBind result := fun A B f m =>
  match m with
  | Ok a => f a
  | Raised e => Raised e
  end.

(** ** Python string and list primitives *)

Module Py.

(** [s.replace(old, new)] for a one-character [old]: every occurrence
    of [old] becomes [new], the other characters stay in place. *)
Fixpoint replace_char (old : ascii) (new : string) (s : string) : string :=
  match s with
  | EmptyString => EmptyString
  | String a r =>
      if Ascii.eqb a old then new +:+ replace_char old new r
      else String a (replace_char old new r)
  end.

(** [s[-1]]: the last character, [IndexError] on the empty string. *)
Fixpoint last_char (s : string) : result ascii :=
  match s with
  | EmptyString => raise IndexError "string index out of range"
  | String a EmptyString => Ok a
  | String _ r => last_char r
  end.

(** [s[:-1]]: all but the last character; the empty string stays empty. *)
Fixpoint drop_last (s : string) : string :=
  match s with
  | EmptyString => EmptyString
  | String _ EmptyString => EmptyString
  | String a r => String a (drop_last r)
  end.

(** [s[::-1]], as the sequence of characters a [for] or [zip] iterates. *)
Definition reversed (s : string) : list ascii :=
  rev (list_ascii_of_string s).

(** [len(s)]. *)
Definition len (s : string) : Z := Z.of_nat (String.length s).

(** [range(lo, hi)]. *)
Definition range (lo hi : Z) : list Z :=
  map (fun i => lo + Z.of_nat i) (seq 0 (Z.to_nat (hi - lo))).

(** [zip(xs, ys)] stops at the shorter argument. *)
Definition zip {A B} (xs : list A) (ys : list B) : list (A * B) :=
  combine xs ys.

(** The value of a decimal digit character. *)
Definition digit_value (c : ascii) : option Z :=
  let n := Z.of_nat (nat_of_ascii c) in
  if (48 <=? n) && (n <=? 57) then Some (n - 48) else None.

(** [int(c)] on a one-character string: its digit value, [ValueError]
    on anything that is not a decimal digit. *)
Definition int_of_char (c : ascii) : result Z :=
  match digit_value c with
  | Some d => Ok d
  | None =>
      raise ValueError
        ("invalid literal for int() with base 10: '" +:+ String c "'")
  end.

(** [sum(f(x) for x in xs)]: the generator is consumed left to right,
    starting from 0; the first element on which [f] raises ends it. *)
Fixpoint sum_from {A} (f : A -> result Z) (acc : Z) (xs : list A)
  : result Z :=
  match xs with
  | [] => Ok acc
  | x :: r => v ← f x; sum_from f (acc + v) r
  end.

Definition sum {A} (f : A -> result Z) (xs : list A) : result Z :=
  sum_from f 0 xs.

(** Characters [str.strip()] removes when called without an argument:
    the white space among the 256 byte-valued characters. *)
Definition is_space (c : ascii) : bool :=
  let n := nat_of_ascii c in
  ((9 <=? n) && (n <=? 13) || (28 <=? n) && (n <=? 32)
   || (n =? 133) || (n =? 160))%nat.

Fixpoint lstrip (drop : ascii -> bool) (s : string) : string :=
  match s with
  | EmptyString => EmptyString
  | String a r => if drop a then lstrip drop r else s
  end.

Definition rstrip (drop : ascii -> bool) (s : string) : string :=
  String.rev (lstrip drop (String.rev s)).

(** [s.strip()] is [strip is_space s]; [s.strip(c)] is
    [strip (Ascii.eqb c) s]. *)
Definition strip (drop : ascii -> bool) (s : string) : string :=
  rstrip drop (lstrip drop s).

Fixpoint contains (c : ascii) (s : string) : bool :=
  match s with
  | EmptyString => false
  | String a r => Ascii.eqb a c || contains c r
  end.

(** [s.split(sep)[-1]]: what follows the last [sep], the whole string
    when [sep] does not occur. *)
Fixpoint split_last (sep : ascii) (s : string) : string :=
  match s with
  | EmptyString => EmptyString
  | String a r =>
      if contains sep r then split_last sep r
      else if Ascii.eqb a sep then r else s
  end.

(** [sep.join(parts)]. *)
Fixpoint join (sep : string) (parts : list string) : string :=
  match parts with
  | [] => ""
  | [x] => x
  | x :: r => x +:+ sep +:+ join sep r
  end.

(** [l[i] = v]: in range from either end, else [IndexError]. *)
Definition list_setitem {A} (l : list A) (i : Z) (v : A) : result (list A) :=
  let n := Z.of_nat (length l) in
  if (0 <=? i) && (i <? n) then Ok (<[Z.to_nat i := v]> l)
  else if (- n <=? i) && (i <? 0) then Ok (<[Z.to_nat (n + i) := v]> l)
  else raise IndexError "list assignment index out of range".

(** Truth value of an [Optional[str]]: [None] and [""] are false. *)
Definition truthy (s : option string) : bool :=
  match s with
  | None | Some EmptyString => false
  | Some _ => true
  end.

(** First binding of [key] in an insertion-ordered mapping. *)
Fixpoint assoc {V} (key : string) (kvs : list (string * V)) : option V :=
  match kvs with
  | [] => None
  | (k, v) :: r => if String.eqb k key then Some v else assoc key r
  end.

(** The double quote character, spelled by its code. *)
Definition dquote : string := String "034"%char "".

End Py.

(** ** The CAS validator *)

Definition validate_cas_number (cas_number : string) : result bool :=
  (* Remove hyphens and extract the check digit *)
  let digits := Py.replace_char "-"%char "" cas_number in
  last ← Py.last_char digits;
  check_digit ← Py.int_of_char last;
  let digits := Py.drop_last digits in
  (* Calculate the checksum using the weight *)
  weighted_sum ←
    Py.sum (fun '(digit, weight) => d ← Py.int_of_char digit; Ok (d * weight))
           (Py.zip (Py.reversed digits) (Py.range 1 (Py.len digits + 1)));
  let calculated_check_digit := weighted_sum mod 10 in
  Ok (calculated_check_digit =? check_digit).

(** ** Parsed HTML, as BeautifulSoup presents it *)

Module Bs.

(** An attribute value is a string, or a list of tokens for the
    multi-valued attributes ([class] among them). *)
Inductive attr_value :=
| AttrStr (s : string)
| AttrList (tokens : list string).

(** A node of the tree is text or an element with its attributes and
    children ([Tag.contents]). *)
#[warnings="-register-all"] Inductive node :=
| NavigableString (s : string)
| Tag (name : string) (attrs : list (string * attr_value))
      (contents : list node).

(** An element as [find] hands it out: the element together with the
    siblings that follow it under its parent. *)
Record tag := MkTag {
  tag_name : string;
  tag_attrs : list (string * attr_value);
  tag_contents : list node;
  tag_next_siblings : list node
}.

(** The elements below a list of sibling nodes, in document order. *)
Fixpoint descendants_of (n : node) (next : list node) : list tag :=
  match n with
  | NavigableString _ => []
  | Tag name attrs contents =>
      MkTag name attrs contents next ::
      (fix below (l : list node) : list tag :=
         match l with
         | [] => []
         | x :: r => descendants_of x r ++ below r
         end) contents
  end.

Fixpoint descendants (l : list node) : list tag :=
  match l with
  | [] => []
  | x :: r => descendants_of x r ++ descendants r
  end.

(** How a searched attribute value is compared with the wanted string:
    a token list matches when one token does, or when the tokens joined
    by single spaces do. *)
Definition attr_matches (v : attr_value) (want : string) : bool :=
  match v with
  | AttrStr s => String.eqb s want
  | AttrList tokens =>
      existsb (fun t => String.eqb t want) tokens
      || String.eqb (Py.join " " tokens) want
  end.

Definition has_attr (key want : string) (t : tag) : bool :=
  match Py.assoc key (tag_attrs t) with
  | Some v => attr_matches v want
  | None => false
  end.

Definition has_name (name : string) (t : tag) : bool :=
  String.eqb (tag_name t) name.

(** [Tag.string]: the text of an element whose only child is a text
    node, looking through chains of only children. *)
Fixpoint node_string (n : node) : option string :=
  match n with
  | NavigableString s => Some s
  | Tag _ _ [c] => node_string c
  | Tag _ _ _ => None
  end.

Definition tag_string (t : tag) : option string :=
  match tag_contents t with
  | [c] => node_string c
  | _ => None
  end.

Definition has_string (want : string) (t : tag) : bool :=
  match tag_string t with
  | Some s => String.eqb s want
  | None => false
  end.

(** [x.find(...)]: the first element below [x], in document order, that
    passes the filter; [None] when there is none. *)
Definition find (accept : tag -> bool) (below : list node) : option tag :=
  List.find accept (descendants below).

(** [t.find_next_sibling(name)]. *)
Fixpoint next_sibling_named (name : string) (sibs : list node) : option tag :=
  match sibs with
  | [] => None
  | Tag nm attrs contents :: r =>
      if String.eqb nm name then Some (MkTag nm attrs contents r)
      else next_sibling_named name r
  | NavigableString _ :: r => next_sibling_named name r
  end.

Definition find_next_sibling (name : string) (t : tag) : option tag :=
  next_sibling_named name (tag_next_siblings t).

(** [Tag.text]: the text nodes below the element, concatenated. *)
Fixpoint node_text (n : node) : string :=
  match n with
  | NavigableString s => s
  | Tag _ _ contents =>
      (fix texts (l : list node) : string :=
         match l with
         | [] => ""
         | x :: r => node_text x +:+ texts r
         end) contents
  end.

Definition text (t : tag) : string :=
  node_text (Tag (tag_name t) (tag_attrs t) (tag_contents t)).

(** [Tag.get(key)]. *)
Definition get (key : string) (t : tag) : option attr_value :=
  Py.assoc key (tag_attrs t).

End Bs.

(** ** Tables *)

(** A cell holds a string or [None]. *)
Inductive cell :=
| CStr (s : string)
| CNone.

(** A [pandas.DataFrame]: the row labels and the columns in insertion
    order, every column as long as the list of labels.  Labels are
    integers; a frame built from a dict of lists has the labels
    [0 .. n-1], a filtered frame keeps the labels of the rows it kept. *)
Record DataFrame := MkDataFrame {
  df_index : list Z;
  df_columns : list (string * list cell)
}.

(** A row as [iterrows] yields it: the cells by column name. *)
Definition row : Type := list (string * cell).

Module Pd.

(** [len(df)]. *)
Definition len (df : DataFrame) : nat := length (df_index df).

(** [df[column]]: the cells of the column, [KeyError] when absent. *)
Definition getitem (df : DataFrame) (column : string) : result (list cell) :=
  match Py.assoc column (df_columns df) with
  | Some cells => Ok cells
  | None => raise KeyError ("'" +:+ column +:+ "'")
  end.

(** Rows kept by a boolean mask. *)
Fixpoint select {A} (mask : list bool) (l : list A) : list A :=
  match mask, l with
  | b :: mask', x :: r => if b then x :: select mask' r else select mask' r
  | _, _ => []
  end.

(** [df[mask]]: the rows whose mask entry is true, labels and all columns
    kept. *)
Definition filter_rows (df : DataFrame) (mask : list bool) : DataFrame :=
  {| df_index := select mask (df_index df);
     df_columns := map (fun '(name, cells) => (name, select mask cells))
                       (df_columns df) |}.

(** [df.empty]: one of the two axes has length 0. *)
Definition empty (df : DataFrame) : bool :=
  (length (df_index df) =? 0)%nat || (length (df_columns df) =? 0)%nat.

(** [df[column] = cells]: overwrite the column, or add it last. *)
Fixpoint set_column (column : string) (cells : list cell)
    (cols : list (string * list cell)) : list (string * list cell) :=
  match cols with
  | [] => [(column, cells)]
  | (k, v) :: r =>
      if String.eqb k column then (k, cells) :: r
      else (k, v) :: set_column column cells r
  end.

Definition setitem (df : DataFrame) (column : string) (cells : list cell)
  : DataFrame :=
  {| df_index := df_index df;
     df_columns := set_column column cells (df_columns df) |}.

(** The row at position [i] of the columns. *)
Definition row_at (cols : list (string * list cell)) (i : nat) : row :=
  omap (fun '(name, cells) => (fun c => (name, c)) <$> cells !! i) cols.

(** [df.iterrows()]: label and row, in row order. *)
Definition iterrows (df : DataFrame) : list (Z * row) :=
  imap (fun i label => (label, row_at (df_columns df) i)) (df_index df).

(** [row[column]]. *)
Definition row_getitem (r : row) (column : string) : result cell :=
  match Py.assoc column r with
  | Some c => Ok c
  | None => raise KeyError ("'" +:+ column +:+ "'")
  end.

(** [df.head(k)]: the first [k] rows. *)
Definition head (k : nat) (df : DataFrame) : DataFrame :=
  {| df_index := take k (df_index df);
     df_columns := map (fun '(name, cells) => (name, take k cells))
                       (df_columns df) |}.

End Pd.

(** A method of [str] called on a cell: [None] has no such attribute. *)
Definition str_method {A} (method : string) (f : string -> result A) (c : cell)
  : result A :=
  match c with
  | CStr s => f s
  | CNone =>
      raise AttributeError
        ("'NoneType' object has no attribute '" +:+ method +:+ "'")
  end.

(** [c != s] for a cell [c] and a string [s]; [None] differs from every
    string. *)
Definition cell_ne_str (c : cell) (s : string) : bool :=
  match c with
  | CStr t => negb (String.eqb t s)
  | CNone => true
  end.

(** What an f-string prints for a cell. *)
Definition format_cell (c : cell) : string :=
  match c with
  | CStr s => s
  | CNone => "None"
  end.

(** ** The outside world: network, clock, standard output *)

Record response := MkResponse {
  status_code : Z;
  resp_text : string;      (* [response.text] *)
  resp_content : string    (* [response.content] *)
}.

(** What the program does to the outside world, in order. *)
Inductive event :=
| EvGet (url : string) (timeout : option Z)
| EvSleep (seconds : Z)
| EvPrint (line : string).

(** The parts of the libraries that are not modelled line by line: the
    servers behind [requests.get] (an answer or a raised exception, and a
    next state of the world), the message of the [HTTPError] that
    [raise_for_status] builds, and the [html.parser] tree builder. *)
Class Web := {
  world : Type;
  http_get : string -> option Z -> world -> result response * world;
  http_error_message : string -> response -> string;
  html_parser : string -> list Bs.node
}.

Section Effects.
Context `{W : Web}.

Record state := MkState {
  st_world : world;
  st_trace : list event
}.

(** An effectful computation: it may raise, and it changes the state
    either way. *)
Definition M (A : Type) : Type := state -> result A * state.

#[global] Instance M_ret : MRet M := fun A a s => (Ok a, s).
#[global] Instance M_bind : MBind M := fun A B f m s =>
  match m s with
  | (Ok a, s') => f a s'
  | (Raised e, s') => (Raised e, s')
  end.

Definition lift {A} (r : result A) : M A := fun s => (r, s).

Definition emit (e : event) : M unit :=
  fun s => (Ok tt, MkState (st_world s) (st_trace s ++ [e])).

(** [requests.get(url, timeout=...)]. *)
Definition requests_get (url : string) (timeout : option Z) : M response :=
  fun s =>
    let '(r, w) := http_get url timeout (st_world s) in
    (r, MkState w (st_trace s ++ [EvGet url timeout])).

(** [response.raise_for_status()]. *)
Definition raise_for_status (url : string) (r : response) : M unit :=
  if (400 <=? status_code r) && (status_code r <? 600)
  then lift (raise HTTPError (http_error_message url r))
  else mret tt.

Definition time_sleep (seconds : Z) : M unit := emit (EvSleep seconds).
Definition print (line : string) : M unit := emit (EvPrint line).

(** [BeautifulSoup(markup, "html.parser")]: the top-level nodes. *)
Definition BeautifulSoup (markup : string) : list Bs.node := html_parser markup.

(** [try: body except <classes>: handler]. *)
Definition try_except {A} (body : M A) (catches : exn -> bool)
    (handler : exn -> M A) : M A :=
  fun s =>
    match body s with
    | (Raised e, s') => if catches e then handler e s' else (Raised e, s')
    | (Ok a, s') => (Ok a, s')
    end.

(** [try: body finally: final]: [final] runs on every way out of [body]. *)
Definition try_finally {A} (body : M A) (final : M unit) : M A :=
  fun s =>
    let '(r, s') := body s in
    match final s' with
    | (Ok _, s'') => (r, s'')
    | (Raised e, s'') => (Raised e, s'')
    end.

(** [except Exception] and a bare [except]. *)
Definition any_exception (e : exn) : bool := true.

(** [except requests.exceptions.Timeout]. *)
Definition is_timeout (e : exn) : bool :=
  match exn_class_of e with
  | Timeout => true
  | _ => false
  end.

(** [series.apply(f)]: [f] on every cell, first to last. *)
Fixpoint apply {A B} (f : A -> M B) (cells : list A) : M (list B) :=
  match cells with
  | [] => mret []
  | c :: r => y ← f c; ys ← apply f r; mret (y :: ys)
  end.

(** [for x in xs: body], the loop state passed along. *)
Fixpoint for_each {A S} (xs : list A) (body : A -> S -> M S) (acc : S) : M S :=
  match xs with
  | [] => mret acc
  | x :: r => acc' ← body x acc; for_each r body acc'
  end.

End Effects.

(** ** The functions of the repository *)

Section Program.
Context `{W : Web}.

(** *** CAS validation over a table *)

Definition find_invalid_cas (dataframe : DataFrame) (column : string)
  : M (option DataFrame) :=
  (* Apply the validate_cas_number function to each CAS number *)
  cells ← lift (Pd.getitem dataframe column);
  valid_mask ←
    apply (fun c => lift (str_method "replace" validate_cas_number c)) cells;
  (* Filter the dataframe to get only the rows with invalid CAS numbers *)
  let invalid_cas_df := Pd.filter_rows dataframe (map negb valid_mask) in
  if Pd.empty invalid_cas_df
  then print "All CASRNs are valid";; mret None
  else mret (Some invalid_cas_df).

(** *** Human Metabolome Database *)

Definition extract_hmdb_id (CASid : cell) : M string :=
  CASid ← lift (str_method "strip"
                  (fun s => Ok (Py.strip (Ascii.eqb "'"%char) s)) CASid);
  let first_part_url := "https://hmdb.ca/unearth/q?utf8=%E2%9C%93&query=" in
  let second_part_url := "&searcher=metabolites&button=" in
  let full_url :=
    first_part_url +:+ Py.dquote +:+ CASid +:+ Py.dquote +:+ second_part_url in
  try_finally
    (try_except
       (response ← requests_get full_url None;
        raise_for_status full_url response;;
        let soup := BeautifulSoup (resp_text response) in
        let result_link := Bs.find (Bs.has_attr "class" "result-link") soup in
        match result_link with
        | Some link =>
            match Bs.find (Bs.has_name "a") (Bs.tag_contents link) with
            | Some a =>
                match Bs.get "href" a with
                | Some (Bs.AttrStr href) => mret (Py.split_last "/"%char href)
                | Some (Bs.AttrList _) =>
                    lift (raise AttributeError
                            "'list' object has no attribute 'split'")
                | None =>
                    lift (raise AttributeError
                            "'NoneType' object has no attribute 'split'")
                end
            | None => mret "HMDB ID not found"
            end
        | None => mret "HMDB ID not found"
        end)
       any_exception
       (fun e => mret ("Error: " +:+ exn_msg e)))
    (time_sleep 2).

Definition add_HMDBid_to_df (df : DataFrame) : M DataFrame :=
  cells ← lift (Pd.getitem df "casId_final");
  ids ← apply extract_hmdb_id cells;
  mret (Pd.setitem df "HMDB_id" (CStr <$> ids)).

Definition fetch_HMDB_status (hmdb_id : cell) : M string :=
  let base_url := "https://hmdb.ca/metabolites/" in
  let full_url := base_url +:+ format_cell hmdb_id in
  try_finally
    (try_except
       (response ← requests_get full_url None;
        raise_for_status full_url response;;
        let soup := BeautifulSoup (resp_text response) in
        th ← match Bs.find (fun t => Bs.has_name "th" t && Bs.has_string "Status" t)
                           soup with
             | Some th => mret th
             | None =>
                 lift (raise AttributeError
                   "'NoneType' object has no attribute 'find_next_sibling'")
             end;
        let status_container := Bs.find_next_sibling "td" th in
        match status_container with
        | Some td => mret (Py.strip Py.is_space (Bs.text td))
        | None => mret "Not Found"
        end)
       any_exception
       (fun e => mret ("Error: " +:+ exn_msg e)))
    (time_sleep 2).

(** The inner function of [add_status_to_df]. *)
Definition check_and_fetch_status (hmdb_id : cell) : M cell :=
  if cell_ne_str hmdb_id "HMDB ID not found"
  then status ← fetch_HMDB_status hmdb_id; mret (CStr status)
  else mret CNone.

Definition add_status_to_df (df : DataFrame) (HMDBid_column : string)
  : M DataFrame :=
  cells ← lift (Pd.getitem df HMDBid_column);
  status ← apply check_and_fetch_status cells;
  mret (Pd.setitem df "HMDB_status" status).

(** *** PubMed *)

(** An entry of the list [PubMed_results_biomon_terms] returns: a string
    (['NA'], ["TIMEOUT"]) or the [.contents] list of an element. *)
Inductive entry :=
| EStr (s : string)
| EContents (children : list Bs.node).

(** The body of the loop of [PubMed_results_biomon_terms], run on one
    pair of [df.iterrows()] with the list built so far. *)
Definition PubMed_loop_body (search_url NAME : string)
    (search_string : option string) (resume_from : Z)
  : Z * row → list entry → M (list entry) :=
  fun '(index, row) n_results =>
    if index <? resume_from then mret n_results (* skip: already processed *)
    else
      name ← lift (Pd.row_getitem row NAME);
      (* Replace spaces with "+" for use in the URL *)
      name ← lift (str_method "replace"
                     (fun s => Ok (Py.replace_char " "%char "+" s)) name);
      let url :=
        if Py.truthy search_string
        then search_url +:+ "(" +:+ Py.dquote +:+ name +:+ Py.dquote +:+ ")"
             +:+ default "" search_string
        else search_url +:+ "(" +:+ Py.dquote +:+ name +:+ Py.dquote +:+ ")" in
      try_except
        (response ← requests_get url (Some 20);
         let soup := BeautifulSoup (resp_content response) in
         try_except
           (result ←
              match Bs.find (fun t => Bs.has_name "span" t
                                      && Bs.has_attr "class" "value" t) soup with
              | Some span => mret (Bs.tag_contents span)
              | None =>
                  lift (raise AttributeError
                          "'NoneType' object has no attribute 'contents'")
              end;
            lift (Py.list_setitem n_results index (EContents result)))
           any_exception
           (fun _ => lift (Py.list_setitem n_results index (EStr "NA"))))
        is_timeout
        (fun _ => lift (Py.list_setitem n_results index (EStr "TIMEOUT"))).

Definition PubMed_results_biomon_terms (search_url : string) (df : DataFrame)
    (NAME : string) (search_string : option string) (resume_from : Z)
  : M (list entry) :=
  (* Pre-fill with 'NA' for all rows *)
  let n_results := replicate (Pd.len df) (EStr "NA") in
  for_each (Pd.iterrows df)
           (PubMed_loop_body search_url NAME search_string resume_from)
           n_results.

End Program.

(** ** Definitions used to state the properties *)

(** The text of a CAS number once its hyphens are gone. *)
Definition stripped (s : string) : string := Py.replace_char "-"%char "" s.

(** The digit values of a string made of decimal digits only. *)
Fixpoint digit_values (s : string) : option (list Z) :=
  match s with
  | EmptyString => Some []
  | String a r =>
      d ← Py.digit_value a; ds ← digit_values r; Some (d :: ds)
  end.

(** The checksum as the specification words it: of the digits
    [d_1 .. d_n] that precede the check digit, in their written order, the
    one next to the check digit weighs 1, the one before it 2, and so on,
    so [d_i] weighs [n + 1 - i]. *)
Fixpoint spec_weighted_sum (ds : list Z) : Z :=
  match ds with
  | [] => 0
  | d :: r => d * Z.of_nat (length ds) + spec_weighted_sum r
  end.

Definition spec_validate (ds : list Z) (c : Z) : bool :=
  spec_weighted_sum ds mod 10 =? c.

(** The generator inside [sum(...)] of [validate_cas_number]. *)
Definition weighted_term : ascii * Z → result Z :=
  fun '(digit, weight) => d ← Py.int_of_char digit; Ok (d * weight).

(** The weighted sum of digits listed from the check digit outwards, the
    first weight being [k + 1]. *)
Fixpoint weighted_from (k : nat) (vs : list Z) : Z :=
  match vs with
  | [] => 0
  | v :: r => v * (1 + Z.of_nat k) + weighted_from (S k) r
  end.

(** Text [validate_cas_number] can work on: digits and hyphens, with at
    least one digit. *)
Definition well_formed (s : string) : bool :=
  match digit_values (stripped s) with
  | Some (_ :: _) => true
  | _ => false
  end.

Definition well_formed_cell (c : cell) : bool :=
  match c with
  | CStr s => well_formed s
  | CNone => false
  end.

(** The invariant of a frame: every column has one cell per label. *)
Definition df_wf (df : DataFrame) : Prop :=
  Forall (λ col, length col.2 = length (df_index df)) (df_columns df).

(** A row whose cell under [column] is rejected by the validator. *)
Definition fails_validation (column : string) (r : Z * row) : bool :=
  match Py.assoc column r.2 with
  | Some (CStr s) =>
      match validate_cas_number s with
      | Ok b => negb b
      | Raised _ => false
      end
  | _ => false
  end.

(** The columns without their first row. *)
Definition col_tails (cols : list (string * list cell))
  : list (string * list cell) :=
  map (λ '(name, cells), (name, tail cells)) cols.

(** The inputs the specification calls malformed: a character that is
    neither digit nor hyphen, nothing left once hyphens are removed, or a
    check digit with no digit before it. *)
Definition malformed (s : string) : bool :=
  match digit_values (stripped s) with
  | None => true
  | Some ds => (length ds <=? 1)%nat
  end.



(** The header cell [fetch_HMDB_status] looks for. *)
Definition th_status (t : Bs.tag) : bool :=
  Bs.has_name "th" t && Bs.has_string "Status" t.

(** The query URL of a chemical name. *)
Definition pubmed_url (search_url : string) (search_string : option string)
    (name : string) : string :=
  let name := Py.replace_char " "%char "+" name in
  search_url +:+ "(" +:+ Py.dquote +:+ name +:+ Py.dquote +:+ ")"
  +:+ (if Py.truthy search_string then default "" search_string else "").

(** The status page of an identifier cell. *)
Definition hmdb_url (hmdb_id : cell) : string :=
  "https://hmdb.ca/metabolites/" +:+ format_cell hmdb_id.

(** The search page of a CAS number. *)
Definition hmdb_search_url (CASid : string) : string :=
  "https://hmdb.ca/unearth/q?utf8=%E2%9C%93&query=" +:+ Py.dquote +:+
  Py.strip (Ascii.eqb "'"%char) CASid +:+ Py.dquote +:+
  "&searcher=metabolites&button=".

(** Text that [lstrip] leaves alone: empty, or starting with a character
    that stays. *)
Definition left_clean (drop : ascii → bool) (s : string) : Prop :=
  match s with
  | EmptyString => True
  | String a _ => drop a = false
  end.


Section Outcomes.
Context `{W : Web}.

(** A request that ends in a response or in a timeout. *)
Definition benign (o : result response) : bool :=
  match o with
  | Ok _ => true
  | Raised e => is_timeout e
  end.

(** Every request the servers can be sent ends that way. *)
Definition benign_web : Prop :=
  ∀ (url : string) (timeout : option Z) (w : world),
    benign (http_get url timeout w).1 = true.



(** The string [fetch_HMDB_status] returns for the outcome of its
    request. *)
Definition hmdb_status (url : string) (o : result response) : string :=
  match o with
  | Raised e => "Error: " +:+ exn_msg e
  | Ok r =>
      if (400 <=? status_code r) && (status_code r <? 600)
      then "Error: " +:+ http_error_message url r
      else
        match Bs.find th_status (BeautifulSoup (resp_text r)) with
        | None =>
            "Error: 'NoneType' object has no attribute 'find_next_sibling'"
        | Some th =>
            match Bs.find_next_sibling "td" th with
            | Some td => Py.strip Py.is_space (Bs.text td)
            | None => "Not Found"
            end
        end
  end.

(** What looking up the status of one identifier cell does to the outside
    world: nothing for the not-found sentinel, else one request for the
    cell's status page followed by the two-second pause. *)
Definition lookup_events (c : cell) : list event :=
  if cell_ne_str c "HMDB ID not found"
  then [EvGet (hmdb_url c) None; EvSleep 2]
  else [].



(** The string [extract_hmdb_id] returns for the outcome of its
    request. *)
Definition hmdb_id_result (url : string) (o : result response) : string :=
  match o with
  | Raised e => "Error: " +:+ exn_msg e
  | Ok r =>
      if (400 <=? status_code r) && (status_code r <? 600)
      then "Error: " +:+ http_error_message url r
      else
        match Bs.find (Bs.has_attr "class" "result-link")
                      (BeautifulSoup (resp_text r)) with
        | None => "HMDB ID not found"
        | Some link =>
            match Bs.find (Bs.has_name "a") (Bs.tag_contents link) with
            | None => "HMDB ID not found"
            | Some a =>
                match Bs.get "href" a with
                | Some (Bs.AttrStr href) => Py.split_last "/"%char href
                | Some (Bs.AttrList _) =>
                    "Error: 'list' object has no attribute 'split'"
                | None => "Error: 'NoneType' object has no attribute 'split'"
                end
            end
        end
  end.

(** What looking up the identifier of one CAS number does to the outside
    world. *)
Definition search_events (CASid : string) : list event :=
  [EvGet (hmdb_search_url CASid) None; EvSleep 2].

End Outcomes.

(** ** Sample data *)

(** The example frame of the script ([pd.DataFrame(data)]). *)
Definition data : list (string * list cell) :=
  [("CAS Number",
    [CStr "7732-18-5"; CStr "80-05-7"; CStr "123-45-6"; CStr "50-00-0"]);
   ("Chemical",
    [CStr "Water"; CStr "Bisphenol A"; CStr "Fictional Compound";
     CStr "Formaldehyde"])].

Definition df : DataFrame := MkDataFrame [0; 1; 2; 3] data.

(** The frame [find_invalid_cas(df, 'CAS Number')] returns: the one
    rejected row, still labelled 2. *)
Definition invalid_cas_df : DataFrame :=
  MkDataFrame [2]
    [("CAS Number", [CStr "123-45-6"]); ("Chemical", [CStr "Fictional Compound"])].

(** A frame of identifiers as [add_HMDBid_to_df] leaves them. *)
Definition ids_df : DataFrame :=
  MkDataFrame [0; 1; 2]
    [("HMDB_id",
      [CStr "HMDB0002111"; CStr "HMDB ID not found";
       CStr "Error: connection refused"])].


(** A page with a hit count and no table. *)
Definition sample_page : list Bs.node :=
  [Bs.Tag "html" []
     [Bs.Tag "div" [("class", Bs.AttrList ["results-amount"])]
        [Bs.Tag "span" [("class", Bs.AttrList ["value"])]
           [Bs.NavigableString "12"]]]].

(** A status page: the header cell and its value cell in one table row. *)
Definition status_page : list Bs.node :=
  [Bs.Tag "table" []
     [Bs.Tag "tr" []
        [Bs.Tag "th" [] [Bs.NavigableString "Status"];
         Bs.NavigableString " ";
         Bs.Tag "td" [] [Bs.NavigableString " Detected and Quantified "]]]].

(** A status page whose header cell has no value cell after it. *)
Definition status_page_no_value : list Bs.node :=
  [Bs.Tag "table" []
     [Bs.Tag "tr" [] [Bs.Tag "th" [] [Bs.NavigableString "Status"]]]].

(** A small web.  The state counts the requests made so far and every
    third request times out.  The others are answered, with status 404 for
    the status page of an error string and 200 otherwise; the body of an
    answer is the URL, which the parser maps to one of the pages above. *)
Definition sample_web : Web := {|
  world := nat;
  http_get := λ url timeout n,
    (if (n mod 3 =? 2)%nat then raise Timeout "Read timed out."
     else if String.eqb url (hmdb_url (CStr "Error: connection refused"))
     then Ok (MkResponse 404 url url)
     else Ok (MkResponse 200 url url), S n);
  http_error_message := λ url r, "404 Client Error: Not Found for url: " +:+ url;
  html_parser := λ markup,
    if String.eqb markup (hmdb_url (CStr "HMDB0002111")) then status_page
    else if String.eqb markup (hmdb_url (CStr "HMDB0000001"))
    then status_page_no_value
    else sample_page
|}.

Definition sample_start : @state sample_web := @MkState sample_web 0%nat [].

(** A frame of CAS numbers with a hole, and one ready for the HMDB
    drivers. *)
Definition holed_df : DataFrame :=
  MkDataFrame [0; 1; 2]
    [("CAS Number", [CStr "50-00-0"; CNone; CStr "80-05-7"]);
     ("casId_final", [CStr "50-00-0"; CNone; CStr "80-05-7"])].

Definition cas_df : DataFrame :=
  MkDataFrame [0; 1; 2]
    [("casId_final", [CStr "'50-00-0'"; CStr "80-05-7"; CStr "123-45-6"]);
     ("Chemical", [CStr "Formaldehyde"; CStr "Bisphenol A"; CStr "Fictional"])].

(** A search page with one result, and a second small web: requests about
    bisphenol A are refused, every other request is answered with the
    URL as its body; the search for formaldehyde gets the page with the
    result, its status page the page with the status. *)
Definition search_page : list Bs.node :=
  [Bs.Tag "div" [("class", Bs.AttrList ["result-link"; "btn-group"])]
     [Bs.Tag "a" [("href", Bs.AttrStr "/metabolites/HMDB0001426")]
        [Bs.NavigableString "HMDB0001426"]]].

Definition refusing_web : Web := {|
  world := nat;
  http_get := λ url timeout n,
    (if String.eqb url (hmdb_search_url "80-05-7")
        || String.eqb url (pubmed_url "https://pubmed.ncbi.nlm.nih.gov/?term="
                                      None "Bisphenol A")
     then raise RequestException "Connection refused"
     else Ok (MkResponse 200 url url), S n);
  http_error_message := λ url r, "404 Client Error: Not Found for url: " +:+ url;
  html_parser := λ markup,
    if String.eqb markup (hmdb_search_url "50-00-0") then search_page
    else if String.eqb markup (hmdb_url (CStr "HMDB0001426")) then status_page
    else sample_page
|}.

Definition refusing_start : @state refusing_web := @MkState refusing_web 0%nat [].

(** * Properties *)

(** ** Strings *)

Lemma append_nil (t : string) : "" +:+ t = t.
Proof. reflexivity. Qed.

Lemma append_cons (a : ascii) (s t : string) :
  String a s +:+ t = String a (s +:+ t).
Proof. reflexivity. Qed.

Lemma append_empty_r (s : string) : s +:+ "" = s.
Proof. induction s as [|a s IH]; [done|]. by rewrite append_cons, IH. Qed.

Lemma last_char_snoc (s : string) (a : ascii) :
  Py.last_char (s +:+ String a "") = Ok a.
Proof.
  induction s as [|b s IH]; [done|].
  rewrite append_cons. destruct s; [done|]. exact IH.
Qed.

Lemma drop_last_snoc (s : string) (a : ascii) :
  Py.drop_last (s +:+ String a "") = s.
Proof.
  induction s as [|b s IH]; [done|].
  rewrite append_cons. destruct s as [|c s]; [done|].
  rewrite append_cons in IH |- *. cbn in IH |- *. by rewrite IH.
Qed.

Lemma string_snoc_inv (s : string) :
  s = "" ∨ ∃ t a, s = t +:+ String a "".
Proof.
  induction s as [|b s IH]; [by left|right].
  destruct IH as [->|(t & a & ->)].
  - by exists "", b.
  - by exists (String b t), a.
Qed.

Lemma length_list_ascii_of_string (s : string) :
  length (list_ascii_of_string s) = String.length s.
Proof. induction s as [|b s IH]; [done|]. cbn. by rewrite IH. Qed.

Lemma stripped_idempotent (s : string) : stripped (stripped s) = stripped s.
Proof.
  unfold stripped. induction s as [|a s IH]; [done|].
  cbn. destruct (Ascii.eqb a "-") eqn:E.
  - by rewrite append_nil.
  - cbn. by rewrite E, IH.
Qed.

Lemma digit_values_snoc (s : string) (a : ascii) :
  digit_values (s +:+ String a "") =
  ds ← digit_values s; d ← Py.digit_value a; Some (ds ++ [d]).
Proof.
  induction s as [|b s IH].
  - rewrite append_nil. cbn. by destruct (Py.digit_value a).
  - rewrite append_cons. cbn. rewrite IH.
    destruct (Py.digit_value b); [|done]. cbn.
    destruct (digit_values s); [|done]. cbn.
    by destruct (Py.digit_value a).
Qed.

Lemma digit_values_Forall2 (s : string) (ds : list Z) :
  digit_values s = Some ds →
  Forall2 (λ c v, Py.digit_value c = Some v) (list_ascii_of_string s) ds.
Proof.
  revert ds. induction s as [|a s IH]; intros ds; cbn.
  - intros [= <-]. constructor.
  - destruct (Py.digit_value a) eqn:Ea; [|done]. cbn.
    destruct (digit_values s); [|done]. cbn.
    intros [= <-]. constructor; auto.
Qed.

Lemma digit_values_None (s : string) :
  digit_values s = None →
  Exists (λ c, Py.digit_value c = None) (list_ascii_of_string s).
Proof.
  induction s as [|a s IH]; cbn; [done|].
  destruct (Py.digit_value a) eqn:Ea; [|by left]. cbn.
  destruct (digit_values s); [done|]. intros _. right. by apply IH.
Qed.

(** ** Lists *)

Lemma Forall2_rev {A B} (P : A → B → Prop) (l : list A) (k : list B) :
  Forall2 P l k → Forall2 P (rev l) (rev k).
Proof.
  induction 1 as [|x y l k Hxy _ IH]; cbn; [constructor|].
  apply Forall2_app; [done|]. by repeat constructor.
Qed.

Lemma Exists_rev {A} (P : A → Prop) (l : list A) :
  Exists P l → Exists P (rev l).
Proof.
  induction 1 as [x l Hx|x l _ IH]; cbn; apply Exists_app.
  - right. by left.
  - by left.
Qed.

(** ** The weighted sum *)

Section Checksum.

Lemma int_of_char_digit (c : ascii) (d : Z) :
  Py.digit_value c = Some d → Py.int_of_char c = Ok d.
Proof. unfold Py.int_of_char. by intros ->. Qed.

Lemma int_of_char_other (c : ascii) :
  Py.digit_value c = None →
  ∃ msg, Py.int_of_char c = Raised (Raise ValueError msg).
Proof. unfold Py.int_of_char. intros ->. by eexists. Qed.

Lemma range_from_1 (n : nat) :
  Py.range 1 (Z.of_nat n + 1) = map (λ i, 1 + Z.of_nat i) (seq 0 n).
Proof. unfold Py.range. do 2 f_equal. lia. Qed.

(** Digits only: the sum is reached, with weights counted from [k + 1]. *)
Lemma sum_from_digits (cs : list ascii) (vs : list Z) :
  Forall2 (λ c v, Py.digit_value c = Some v) cs vs →
  ∀ (k : nat) (acc : Z),
    Py.sum_from weighted_term acc
      (Py.zip cs (map (λ i, 1 + Z.of_nat i) (seq k (length cs)))) =
    Ok (acc + weighted_from k vs).
Proof.
  induction 1 as [|c v cs vs Hc _ IH]; intros k acc; cbn.
  - f_equal. lia.
  - rewrite (int_of_char_digit _ _ Hc). cbn.
    rewrite IH. f_equal. lia.
Qed.

(** One character that is no digit: [int] raises [ValueError] when the
    generator reaches it, and so does the sum. *)
Lemma sum_from_not_digit (cs : list ascii) :
  Exists (λ c, Py.digit_value c = None) cs →
  ∀ (ws : list Z) (acc : Z), length ws = length cs →
    ∃ msg, Py.sum_from weighted_term acc (Py.zip cs ws) = Raised (Raise ValueError msg).
Proof.
  induction cs as [|c cs IH]; intros Hex ws acc Hlen.
  - by apply Exists_nil in Hex.
  - destruct ws as [|w ws]; [done|]. cbn.
    destruct (Py.digit_value c) as [d|] eqn:Hc.
    + rewrite (int_of_char_digit _ _ Hc). cbn.
      apply IH; [|by injection Hlen].
      apply Exists_cons in Hex as [Hex|Hex]; [congruence|done].
    + destruct (int_of_char_other _ Hc) as [msg ->]. by exists msg.
Qed.

Lemma weighted_from_snoc (vs : list Z) (d : Z) (k : nat) :
  weighted_from k (vs ++ [d]) =
  weighted_from k vs + d * (1 + Z.of_nat (k + length vs)).
Proof.
  revert k. induction vs as [|v vs IH]; intros k; cbn.
  - rewrite Nat.add_0_r. lia.
  - rewrite IH. replace (S k + length vs)%nat with (k + S (length vs))%nat by lia.
    lia.
Qed.

(** Weights counted outwards from the check digit are the weights
    [n + 1 - i] of the written order. *)
Lemma weighted_from_rev (ds : list Z) :
  weighted_from 0 (rev ds) = spec_weighted_sum ds.
Proof.
  induction ds as [|d ds IH]; [done|].
  cbn [rev spec_weighted_sum]. rewrite weighted_from_snoc, IH.
  rewrite length_rev. cbn [length]. lia.
Qed.

(** What [validate_cas_number] returns once the stripped text is known to
    end in the character [a]. *)
Lemma validate_snoc (s t : string) (a : ascii) :
  stripped s = t +:+ String a "" →
  validate_cas_number s =
    check_digit ← Py.int_of_char a;
    weighted_sum ←
      Py.sum weighted_term (Py.zip (rev (list_ascii_of_string t))
                          (map (λ i, 1 + Z.of_nat i) (seq 0 (String.length t))));
    Ok (weighted_sum mod 10 =? check_digit).
Proof.
  intros Hs. unfold validate_cas_number. fold (stripped s). rewrite Hs.
  rewrite last_char_snoc, drop_last_snoc. cbn.
  unfold Py.reversed, Py.len. by rewrite range_from_1.
Qed.

Lemma validate_digits (s : string) (ds : list Z) (c : Z) :
  digit_values (stripped s) = Some (ds ++ [c]) →
  validate_cas_number s = Ok (spec_validate ds c).
Proof.
  intros Hd.
  destruct (string_snoc_inv (stripped s)) as [E|(t & a & E)].
  { rewrite E in Hd. cbn in Hd. injection Hd as Hd. by destruct ds. }
  rewrite E, digit_values_snoc in Hd.
  destruct (digit_values t) as [ds'|] eqn:Ht; [|done]. cbn in Hd.
  destruct (Py.digit_value a) as [c'|] eqn:Ha; [|done]. cbn in Hd.
  injection Hd as Hd. apply app_inj_tail in Hd as [-> ->].
  rewrite (validate_snoc _ _ _ E), (int_of_char_digit _ _ Ha). cbn.
  unfold Py.sum. rewrite <- length_list_ascii_of_string, <- length_rev.
  apply digit_values_Forall2, Forall2_rev in Ht.
  rewrite (sum_from_digits _ _ Ht). cbn.
  by rewrite weighted_from_rev.
Qed.

Lemma validate_empty (s : string) :
  stripped s = "" →
  validate_cas_number s = Raised (Raise IndexError "string index out of range").
Proof. intros Hs. unfold validate_cas_number. fold (stripped s). by rewrite Hs. Qed.

Lemma validate_not_digits (s : string) :
  stripped s ≠ "" → digit_values (stripped s) = None →
  ∃ msg, validate_cas_number s = Raised (Raise ValueError msg).
Proof.
  intros Hne Hd.
  destruct (string_snoc_inv (stripped s)) as [E|(t & a & E)]; [done|].
  rewrite E, digit_values_snoc in Hd.
  rewrite (validate_snoc _ _ _ E).
  destruct (Py.digit_value a) as [c|] eqn:Ha.
  - rewrite (int_of_char_digit _ _ Ha). cbn.
    destruct (digit_values t) as [ds|] eqn:Ht; [done|].
    apply digit_values_None in Ht.
    destruct (sum_from_not_digit (rev (list_ascii_of_string t)))
      with (ws := map (λ i, 1 + Z.of_nat i) (seq 0 (String.length t)))
           (acc := 0) as [msg Hmsg].
    + by apply Exists_rev.
    + by rewrite length_map, length_seq, length_rev, length_list_ascii_of_string.
    + unfold Py.sum. rewrite Hmsg. by exists msg.
  - destruct (int_of_char_other _ Ha) as [msg ->]. by exists msg.
Qed.

End Checksum.

(** ** The CAS validator *)

(** C1. [validate_cas_number] strips the hyphens, takes the last digit as
    the check digit [c], weighs the remaining digits 1, 2, ... counting
    from the one next to the check digit, sums digit times weight, and
    returns true exactly when the sum modulo 10 equals [c]; water and
    bisphenol A are valid, 123-45-6 is not. *)
Theorem validate_cas_number_checksum :
  (∀ (s : string) (ds : list Z) (c : Z),
     digit_values (stripped s) = Some (ds ++ [c]) →
     validate_cas_number s = Ok (spec_validate ds c))
  ∧ validate_cas_number "7732-18-5" = Ok true
  ∧ validate_cas_number "80-05-7" = Ok true
  ∧ validate_cas_number "123-45-6" = Ok false.
Proof.
  split; [exact validate_digits|].
  repeat split; reflexivity.
Qed.

Lemma validate_cas_number_checksum_witness :
  digit_values (stripped "50-00-0") = Some ([5; 0; 0; 0] ++ [0])
  ∧ validate_cas_number "50-00-0" = Ok (spec_validate [5; 0; 0; 0] 0).
Proof.
  split; [reflexivity|].
  apply (proj1 validate_cas_number_checksum). reflexivity.
Defined.

(** C3. Two spellings with the same characters apart from hyphens get the
    same answer; in particular a spelling and its hyphen-free form do, as
    do ["7732185"] and ["7732-18-5"]. *)
Theorem validate_cas_number_hyphen_insensitive :
  (∀ s t : string,
     stripped s = stripped t → validate_cas_number s = validate_cas_number t)
  ∧ (∀ s : string, validate_cas_number (stripped s) = validate_cas_number s)
  ∧ validate_cas_number "7732185" = validate_cas_number "7732-18-5".
Proof.
  assert (∀ s t : string, stripped s = stripped t →
            validate_cas_number s = validate_cas_number t) as Hst.
  { intros s t Hst. unfold validate_cas_number. fold (stripped s) (stripped t).
    by rewrite Hst. }
  split; [exact Hst|]. split; [|reflexivity].
  intros s. apply Hst, stripped_idempotent.
Qed.

Lemma validate_cas_number_hyphen_insensitive_witness :
  stripped "80-05-7" = stripped "8005-7"
  ∧ validate_cas_number "80-05-7" = validate_cas_number "8005-7".
Proof.
  split; [reflexivity|].
  apply (proj1 validate_cas_number_hyphen_insensitive). reflexivity.
Defined.

(** C9, as the specification states it, fails: a lone check digit is one
    of the malformed inputs, yet ["5"] is answered with false and nothing
    is raised. *)
Lemma validate_cas_number_lone_digit_returns :
  malformed "5" = true ∧ validate_cas_number "5" = Ok false.
Proof. split; reflexivity. Qed.

(** C9, amended. Text that is empty once the hyphens are gone raises
    [IndexError]; text with a character that is neither digit nor hyphen
    raises [ValueError]; a check digit [c] with no digit before it raises
    nothing: the answer is whether [c] is 0. *)
Theorem validate_cas_number_malformed (s : string) :
  (stripped s = "" →
   validate_cas_number s = Raised (Raise IndexError "string index out of range"))
  ∧ (stripped s ≠ "" → digit_values (stripped s) = None →
     ∃ msg, validate_cas_number s = Raised (Raise ValueError msg))
  ∧ (∀ c : Z, digit_values (stripped s) = Some [c] →
     validate_cas_number s = Ok (0 =? c)).
Proof.
  split; [apply validate_empty|]. split; [apply validate_not_digits|].
  intros c Hc. by rewrite (validate_digits s [] c Hc).
Qed.

Lemma validate_cas_number_malformed_witness :
  (stripped "--" = ""
   ∧ validate_cas_number "--"
     = Raised (Raise IndexError "string index out of range"))
  ∧ (stripped "12a-45-6" ≠ "" ∧ digit_values (stripped "12a-45-6") = None
     ∧ ∃ msg, validate_cas_number "12a-45-6" = Raised (Raise ValueError msg))
  ∧ (digit_values (stripped "-5") = Some [5]
     ∧ validate_cas_number "-5" = Ok (0 =? 5)).
Proof.
  split; [|split].
  - split; [reflexivity|].
    apply (proj1 (validate_cas_number_malformed "--")). reflexivity.
  - split; [discriminate|]. split; [reflexivity|].
    apply (proj1 (proj2 (validate_cas_number_malformed "12a-45-6")));
      [discriminate|reflexivity].
  - split; [reflexivity|].
    apply (proj2 (proj2 (validate_cas_number_malformed "-5"))). reflexivity.
Defined.

(** ** Running effectful code *)

Section Run.
Context `{W : Web}.

Lemma run_bind {A B} (m : M A) (f : A → M B) (s : state) :
  (m ≫= f) s =
  match m s with
  | (Ok a, s') => f a s'
  | (Raised e, s') => (Raised e, s')
  end.
Proof. reflexivity. Qed.

Lemma run_ret {A} (a : A) (s : state) : mret (M := M) a s = (Ok a, s).
Proof. reflexivity. Qed.

Lemma run_lift {A} (r : result A) (s : state) : lift r s = (r, s).
Proof. reflexivity. Qed.

(** Pure code under [apply] leaves the state alone and stops at the first
    cell that raises. *)
Lemma apply_lift_ok {A B} (f : A → result B) (cells : list A) (ys : list B)
    (s : state) :
  Forall2 (λ c y, f c = Ok y) cells ys →
  apply (λ c, lift (f c)) cells s = (Ok ys, s).
Proof.
  induction 1 as [|c y cells ys Hc _ IH]; [done|].
  cbn [apply]. rewrite run_bind, run_lift, Hc.
  rewrite run_bind, IH. reflexivity.
Qed.

End Run.

(** ** Frames *)

Lemma select_filter {A} (p : A → bool) (l : list A) (mask : list bool) :
  Forall2 (λ x b, p x = b) l mask → Pd.select mask l = List.filter p l.
Proof.
  induction 1 as [|x b l mask Hx _ IH]; [done|].
  cbn. rewrite Hx, IH. reflexivity.
Qed.

Lemma row_at_S (cols : list (string * list cell)) (i : nat) :
  Pd.row_at cols (S i) = Pd.row_at (col_tails cols) i.
Proof.
  unfold Pd.row_at, col_tails. induction cols as [|[name cells] cols IH]; [done|].
  cbn. rewrite IH. by destruct cells.
Qed.

Lemma col_tails_length (cols : list (string * list cell)) (n : nat) :
  Forall (λ col, length col.2 = S n) cols →
  Forall (λ col, length col.2 = n) (col_tails cols).
Proof.
  unfold col_tails. induction 1 as [|[name cells] cols Hc _ IH]; cbn; [done|].
  constructor; [|done]. destruct cells; cbn in *; lia.
Qed.

Lemma select_columns_skip (mask : list bool) (cols : list (string * list cell))
    (n : nat) :
  Forall (λ col, length col.2 = S n) cols →
  map (λ '(name, cells), (name, Pd.select (false :: mask) cells)) cols =
  map (λ '(name, cells), (name, Pd.select mask cells)) (col_tails cols).
Proof.
  unfold col_tails. induction 1 as [|[name cells] cols Hc _ IH]; [done|].
  cbn [map]. f_equal; [|exact IH]. by destruct cells.
Qed.

Lemma select_columns_keep (mask : list bool) (cols : list (string * list cell))
    (n : nat) :
  Forall (λ col, length col.2 = S n) cols →
  Pd.row_at (map (λ '(name, cells), (name, Pd.select (true :: mask) cells)) cols) 0
    = Pd.row_at cols 0
  ∧ col_tails (map (λ '(name, cells), (name, Pd.select (true :: mask) cells)) cols)
    = map (λ '(name, cells), (name, Pd.select mask cells)) (col_tails cols).
Proof.
  unfold col_tails, Pd.row_at.
  induction 1 as [|[name cells] cols Hc _ [IH1 IH2]]; [done|].
  destruct cells as [|c cells]; [done|].
  cbn [map omap list_omap]. split; [|f_equal; exact IH2].
  cbn. f_equal. exact IH1.
Qed.

(** Filtering a frame by a mask keeps exactly the masked rows, each with
    its label and all of its cells. *)
Lemma iterrows_select (mask : list bool) :
  ∀ (idx : list Z) (cols : list (string * list cell)),
    length mask = length idx →
    Forall (λ col, length col.2 = length idx) cols →
    imap (λ i label,
            (label, Pd.row_at
                      (map (λ '(name, cells), (name, Pd.select mask cells)) cols) i))
         (Pd.select mask idx)
    = Pd.select mask (imap (λ i label, (label, Pd.row_at cols i)) idx).
Proof.
  induction mask as [|b mask IH]; intros idx cols Hlen Hcols; [done|].
  destruct idx as [|x idx]; [done|]. cbn in Hlen, Hcols.
  injection Hlen as Hlen.
  pose proof (col_tails_length _ _ Hcols) as Htl.
  assert (imap ((λ i label, (label, Pd.row_at cols i)) ∘ S) idx
          = imap (λ i label, (label, Pd.row_at (col_tails cols) i)) idx) as Hrhs.
  { apply imap_ext. intros i y _. unfold compose. by rewrite row_at_S. }
  destruct b.
  - destruct (select_columns_keep mask cols _ Hcols) as [H0 Ht].
    change (Pd.select (true :: mask) (x :: idx)) with (x :: Pd.select mask idx).
    cbn [imap].
    change (Pd.select (true :: mask) ((x, Pd.row_at cols 0) :: ?l))
      with ((x, Pd.row_at cols 0) :: Pd.select mask l).
    rewrite H0, Hrhs, <- (IH idx (col_tails cols) Hlen Htl), <- Ht. f_equal.
    apply imap_ext. intros i y _. unfold compose. by rewrite row_at_S.
  - change (Pd.select (false :: mask) (x :: idx)) with (Pd.select mask idx).
    cbn [imap].
    change (Pd.select (false :: mask) ((x, Pd.row_at cols 0) :: ?l))
      with (Pd.select mask l).
    rewrite (select_columns_skip mask cols _ Hcols), Hrhs.
    apply (IH idx (col_tails cols) Hlen Htl).
Qed.

Lemma assoc_row_at (column : string) (cols : list (string * list cell))
    (cells : list cell) (i : nat) (c : cell) :
  Py.assoc column cols = Some cells → cells !! i = Some c →
  Py.assoc column (Pd.row_at cols i) = Some c.
Proof.
  unfold Pd.row_at. induction cols as [|[name v] cols IH]; [done|].
  cbn. destruct (String.eqb name column) eqn:E.
  - intros [= ->] Hc. rewrite Hc. cbn. by rewrite E.
  - intros Ha Hc. destruct (v !! i); cbn; [rewrite E|]; by apply IH.
Qed.

Lemma getitem_Some (df : DataFrame) (column : string) (cells : list cell) :
  Pd.getitem df column = Ok cells →
  Py.assoc column (df_columns df) = Some cells.
Proof. unfold Pd.getitem. destruct (Py.assoc _ _); [by intros [= ->]|done]. Qed.

Lemma assoc_In {V} (key : string) (kvs : list (string * V)) (v : V) :
  Py.assoc key kvs = Some v → (key, v) ∈ kvs.
Proof.
  induction kvs as [|[k x] kvs IH]; [done|]. cbn.
  destruct (String.eqb k key) eqn:E.
  - apply String.eqb_eq in E as ->. intros [= ->]. by left.
  - intros H. right. by apply IH.
Qed.

(** ** The table filter *)

Lemma validate_well_formed (s : string) :
  well_formed s = true → ∃ b, validate_cas_number s = Ok b.
Proof.
  unfold well_formed. destruct (digit_values (stripped s)) as [ds|] eqn:Hd; [|done].
  destruct ds as [|d ds] using rev_ind; [done|]. intros _.
  eexists. by apply validate_digits.
Qed.

Lemma valid_mask_exists (cells : list cell) :
  Forall (λ c, well_formed_cell c = true) cells →
  ∃ mask, Forall2 (λ c b, str_method "replace" validate_cas_number c = Ok b)
                  cells mask.
Proof.
  induction 1 as [|c cells Hc _ [mask IH]]; [by exists []|].
  destruct c as [s|]; [|done].
  destruct (validate_well_formed s Hc) as [b Hb].
  exists (b :: mask). by constructor.
Qed.

Lemma filter_rows_names (df : DataFrame) (mask : list bool) :
  (df_columns (Pd.filter_rows df mask)).*1 = (df_columns df).*1.
Proof.
  cbn. induction (df_columns df) as [|[name cells] cols IH]; [done|].
  cbn. by rewrite IH.
Qed.

Lemma iterrows_nil (df : DataFrame) : Pd.iterrows df = [] ↔ df_index df = [].
Proof.
  unfold Pd.iterrows. split; intros H.
  - apply (f_equal length) in H. rewrite length_imap in H.
    by destruct (df_index df).
  - by rewrite H.
Qed.

Section FindInvalid.
Context `{W : Web}.

(** C2. On a frame whose [column] holds well-formed CAS strings,
    [find_invalid_cas] returns the rows the validator rejects, in their
    original order, each with its label and all of its cells, under the
    original column names; when no row is rejected it returns nothing
    and prints the all-valid line instead. *)
Theorem find_invalid_cas_filter (df : DataFrame) (column : string)
    (cells : list cell) (s : state) :
  df_wf df →
  Pd.getitem df column = Ok cells →
  Forall (λ c, well_formed_cell c = true) cells →
  match List.filter (fails_validation column) (Pd.iterrows df) with
  | [] =>
      find_invalid_cas df column s =
        (Ok None,
         MkState (st_world s) (st_trace s ++ [EvPrint "All CASRNs are valid"]))
  | invalid =>
      ∃ df', find_invalid_cas df column s = (Ok (Some df'), s)
             ∧ Pd.iterrows df' = invalid
             ∧ (df_columns df').*1 = (df_columns df).*1
  end.
Proof.
  intros Hwf Hget Hcells.
  destruct (valid_mask_exists cells Hcells) as [mask Hmask].
  pose proof (getitem_Some _ _ _ Hget) as Hassoc.
  assert (length cells = length (df_index df)) as Hlen.
  { unfold df_wf in Hwf. rewrite Forall_forall in Hwf.
    apply (Hwf (column, cells)). by apply assoc_In. }
  pose proof (Forall2_length _ _ _ Hmask) as Hlm.
  set (df' := Pd.filter_rows df (map negb mask)).
  assert (Pd.iterrows df'
          = List.filter (fails_validation column) (Pd.iterrows df)) as Hrows.
  { unfold Pd.iterrows at 1. cbn [df' Pd.filter_rows df_index df_columns].
    rewrite iterrows_select; [|rewrite length_map; lia|exact Hwf].
    apply select_filter.
    apply Forall2_same_length_lookup_2.
    { unfold Pd.iterrows. rewrite length_imap, length_map. lia. }
    intros i [label r] b' Hr Hb'.
    unfold Pd.iterrows in Hr. rewrite list_lookup_imap in Hr.
    destruct (df_index df !! i) as [lbl|] eqn:Hi; [|done].
    cbn in Hr. injection Hr as <- <-.
    rewrite list_lookup_fmap in Hb'.
    destruct (mask !! i) as [b|] eqn:Hb; [|done].
    cbn in Hb'. injection Hb' as <-.
    destruct (Forall2_lookup_r _ _ _ _ _ Hmask Hb) as (c & Hc & Hv).
    unfold fails_validation. cbn [snd].
    rewrite (assoc_row_at _ _ _ _ _ Hassoc Hc).
    destruct c as [str|]; [|done]. cbn in Hv. by rewrite Hv. }
  assert (find_invalid_cas df column s =
          if Pd.empty df'
          then (Ok None,
                MkState (st_world s)
                        (st_trace s ++ [EvPrint "All CASRNs are valid"]))
          else (Ok (Some df'), s)) as Hrun.
  { unfold find_invalid_cas. rewrite run_bind, run_lift, Hget.
    rewrite run_bind, (apply_lift_ok _ _ _ _ Hmask). fold df'.
    by destruct (Pd.empty df'). }
  assert (Pd.empty df' = true ↔ Pd.iterrows df' = []) as Hempty.
  { rewrite iterrows_nil. unfold Pd.empty.
    assert (length (df_columns df') ≠ 0%nat) as Hne.
    { cbn. rewrite length_map. by destruct (df_columns df). }
    apply Nat.eqb_neq in Hne. rewrite Hne, orb_false_r, Nat.eqb_eq.
    apply length_zero_iff_nil. }
  rewrite <- Hrows, Hrun. destruct (Pd.empty df') eqn:He.
  - by rewrite (proj1 Hempty eq_refl).
  - destruct (Pd.iterrows df') as [|r rows] eqn:Hit.
    + by specialize (proj2 Hempty eq_refl).
    + exists df'. split; [done|]. split; [done|]. apply filter_rows_names.
Qed.

End FindInvalid.

(** ** The PubMed loop *)



Section PubMed.
Context `{W : Web}.
Variables (search_url NAME : string) (search_string : option string).
Variable resume_from : nat.

Local Abbreviation body :=
  (PubMed_loop_body search_url NAME search_string (Z.of_nat resume_from)).
Local Abbreviation url := (pubmed_url search_url search_string).
Local Abbreviation get_event := (λ u : string, EvGet u (Some 20)).

Lemma for_each_app {A S} (xs ys : list A) (f : A → S → M S) (acc : S)
    (s : state) :
  for_each (xs ++ ys) f acc s =
  match for_each xs f acc s with
  | (Ok acc', s') => for_each ys f acc' s'
  | (Raised e, s') => (Raised e, s')
  end.
Proof.
  revert acc s. induction xs as [|x xs IH]; intros acc s; [done|].
  cbn [app for_each]. rewrite !run_bind.
  destruct (f x acc s) as [[acc'|e] s']; [apply IH|done].
Qed.




Section Rows.
Variables (cols : list (string * list cell)) (names : list string).
Hypothesis Hcol : Py.assoc NAME cols = Some (CStr <$> names).


End Rows.

Lemma getitem_length (df : DataFrame) (column : string) (cells : list cell) :
  df_wf df → Pd.getitem df column = Ok cells → length cells = Pd.len df.
Proof.
  intros Hwf Hget. unfold df_wf in Hwf. rewrite Forall_forall in Hwf.
  apply (Hwf (column, cells)). by apply assoc_In, getitem_Some.
Qed.

End PubMed.

(** ** Replaying requests, and the first rows of a frame *)

Section Replay.
Context `{W : Web}.



End Replay.



Lemma head_wf (k : nat) (df : DataFrame) : df_wf df → df_wf (Pd.head k df).
Proof.
  unfold df_wf. cbn. intros Hwf. apply Forall_fmap.
  eapply Forall_impl; [exact Hwf|]. intros [name cells] Hc. cbn in *.
  by rewrite !length_take, Hc.
Qed.


(** ** Row labels used as list positions *)

(** C4 at the frame that [find_invalid_cas] returns for the script's own
    example.  The frame has one row, which keeps the label 2; with
    [resume_from = 0] the claim asks for a list of length 1.  The loop
    stores at position 2 of its one-slot list and the call raises
    [IndexError]. *)
Lemma PubMed_results_filtered_frame_raises :
  (@find_invalid_cas sample_web df "CAS Number" sample_start).1
    = Ok (Some invalid_cas_df)
  ∧ Pd.len invalid_cas_df = 1%nat
  ∧ (@PubMed_results_biomon_terms sample_web
       "https://pubmed.ncbi.nlm.nih.gov/?term=" invalid_cas_df "Chemical"
       None 0 sample_start).1
    = Raised (Raise IndexError "list assignment index out of range").
Proof. repeat split; reflexivity. Qed.

(** ** The HMDB lookups *)

Lemma assoc_set_column_eq (column : string) (cells : list cell)
    (cols : list (string * list cell)) :
  Py.assoc column (Pd.set_column column cells cols) = Some cells.
Proof.
  induction cols as [|[k v] cols IH]; cbn.
  - by rewrite String.eqb_refl.
  - destruct (String.eqb k column) eqn:E; cbn; by rewrite E.
Qed.

Lemma assoc_set_column_ne (column other : string) (cells : list cell)
    (cols : list (string * list cell)) :
  other ≠ column →
  Py.assoc other (Pd.set_column column cells cols) = Py.assoc other cols.
Proof.
  intros Hne. induction cols as [|[k v] cols IH]; cbn.
  - apply not_eq_sym, String.eqb_neq in Hne. by rewrite Hne.
  - destruct (String.eqb k column) eqn:E; cbn.
    + apply String.eqb_eq in E as ->.
      apply not_eq_sym, String.eqb_neq in Hne. by rewrite Hne.
    + by rewrite IH.
Qed.

Lemma setitem_wf (df : DataFrame) (column : string) (cells : list cell) :
  df_wf df → length cells = Pd.len df → df_wf (Pd.setitem df column cells).
Proof.
  unfold df_wf, Pd.len. cbn. intros Hwf Hlen.
  induction Hwf as [|[k v] cols Hv Hcols IH]; cbn.
  - by repeat constructor.
  - destruct (String.eqb k column); by constructor.
Qed.

(** Reading back the column [setitem] wrote, and any other column. *)
Lemma getitem_setitem (df : DataFrame) (column other : string)
    (cells : list cell) :
  Pd.getitem (Pd.setitem df column cells) column = Ok cells
  ∧ (other ≠ column →
     Pd.getitem (Pd.setitem df column cells) other = Pd.getitem df other).
Proof.
  unfold Pd.getitem. cbn. split.
  - by rewrite assoc_set_column_eq.
  - intros Hne. by rewrite assoc_set_column_ne.
Qed.

Section Hmdb.
Context `{W : Web}.

(** [fetch_HMDB_status] never raises: whatever the request does, a string
    comes back, after exactly one request and one pause. *)
Lemma fetch_HMDB_status_run (hmdb_id : cell) (s : state) :
  fetch_HMDB_status hmdb_id s =
    (Ok (hmdb_status (hmdb_url hmdb_id)
           (http_get (hmdb_url hmdb_id) None (st_world s)).1),
     MkState (http_get (hmdb_url hmdb_id) None (st_world s)).2
             (st_trace s ++ [EvGet (hmdb_url hmdb_id) None; EvSleep 2])).
Proof.
  unfold fetch_HMDB_status. fold (hmdb_url hmdb_id).
  unfold try_finally, try_except. rewrite run_bind. unfold requests_get.
  destruct (http_get (hmdb_url hmdb_id) None (st_world s)) as [[r|e] w'];
    cbn [fst snd hmdb_status any_exception].
  - rewrite run_bind. unfold raise_for_status.
    destruct ((400 <=? status_code r) && (status_code r <? 600)).
    + cbn. by rewrite <- app_assoc.
    + rewrite run_ret, run_bind. fold th_status.
      destruct (Bs.find th_status (BeautifulSoup (resp_text r))) as [th|].
      * rewrite run_ret.
        destruct (Bs.find_next_sibling "td" th); cbn; by rewrite <- app_assoc.
      * cbn. by rewrite <- app_assoc.
  - cbn. by rewrite <- app_assoc.
Qed.

Lemma check_and_fetch_status_run (hmdb_id : cell) (s : state) :
  ∃ (status : cell) (s' : state),
    check_and_fetch_status hmdb_id s = (Ok status, s')
    ∧ st_trace s' = st_trace s ++ lookup_events hmdb_id
    ∧ if cell_ne_str hmdb_id "HMDB ID not found"
      then status = CStr (hmdb_status (hmdb_url hmdb_id)
                            (http_get (hmdb_url hmdb_id) None (st_world s)).1)
      else status = CNone ∧ s' = s.
Proof.
  unfold check_and_fetch_status, lookup_events.
  destruct (cell_ne_str hmdb_id "HMDB ID not found").
  - rewrite run_bind, fetch_HMDB_status_run, run_ret. by eexists _, _.
  - exists CNone, s. by rewrite app_nil_r.
Qed.

(** The rows of the identifier column, looked up one after the other. *)
Lemma apply_check_and_fetch_status (cells : list cell) :
  ∀ s : state,
    ∃ (status : list cell) (s' : state),
      apply check_and_fetch_status cells s = (Ok status, s')
      ∧ st_trace s' = st_trace s ++ concat (lookup_events <$> cells)
      ∧ Forall2 (λ c st, if cell_ne_str c "HMDB ID not found"
                         then ∃ t, st = CStr t else st = CNone)
                cells status.
Proof.
  induction cells as [|c cells IH]; intros s.
  - exists [], s. by rewrite app_nil_r.
  - destruct (check_and_fetch_status_run c s) as (st & s1 & Hc & Ht1 & Hst).
    destruct (IH s1) as (status & s2 & Hrest & Ht2 & Hall).
    exists (st :: status), s2. cbn [apply]. rewrite run_bind, Hc.
    rewrite run_bind, Hrest. split; [done|]. split.
    + rewrite Ht2, Ht1. cbn. by rewrite app_assoc.
    + constructor; [|done].
      destruct (cell_ne_str c "HMDB ID not found"); [by eexists|by destruct Hst].
Qed.

(** C6. Every call of [fetch_HMDB_status] leaves one request and one
    pause in the trace, so calls are counted by them.  [add_status_to_df]
    leaves, row after row, nothing for a row that holds the not-found
    sentinel and the request and pause of one call, for that row's
    identifier, for any other row; the [HMDB_status] column read from the
    frame it returns holds [None] for the sentinel rows and a string for
    the others. *)
Theorem add_status_to_df_short_circuit (df : DataFrame) (HMDBid_column : string)
    (cells : list cell) (s : state) :
  Pd.getitem df HMDBid_column = Ok cells →
  (∀ (c : cell) (s0 : state),
     st_trace (fetch_HMDB_status c s0).2
     = st_trace s0 ++ [EvGet (hmdb_url c) None; EvSleep 2])
  ∧ lookup_events (CStr "HMDB ID not found") = []
  ∧ (∀ c : cell, c ≠ CStr "HMDB ID not found" →
       lookup_events c = [EvGet (hmdb_url c) None; EvSleep 2])
  ∧ ∃ (df' : DataFrame) (status : list cell) (s' : state),
      add_status_to_df df HMDBid_column s = (Ok df', s')
      ∧ df' = Pd.setitem df "HMDB_status" status
      ∧ Pd.getitem df' "HMDB_status" = Ok status
      ∧ st_trace s' = st_trace s ++ concat (lookup_events <$> cells)
      ∧ Forall2 (λ c st, if cell_ne_str c "HMDB ID not found"
                         then ∃ t, st = CStr t else st = CNone)
                cells status
      ∧ (∀ i : nat, cells !! i = Some (CStr "HMDB ID not found") →
           status !! i = Some CNone).
Proof.
  intros Hget. split; [|split; [done|split]].
  - intros c s0. by rewrite fetch_HMDB_status_run.
  - intros c Hc. unfold lookup_events.
    destruct c as [t|]; [|done]. cbn.
    destruct (String.eqb t "HMDB ID not found") eqn:E; [|done].
    apply String.eqb_eq in E. congruence.
  - destruct (apply_check_and_fetch_status cells s)
      as (status & s' & Hrun & Htrace & Hall).
    exists (Pd.setitem df "HMDB_status" status), status, s'.
    split; [|split; [done|split; [|split; [done|split; [done|]]]]].
    + unfold add_status_to_df.
      by rewrite run_bind, run_lift, Hget, run_bind, Hrun.
    + apply (getitem_setitem df "HMDB_status" "HMDB_status").
    + intros i Hi.
      destruct (Forall2_lookup_l _ _ _ _ _ Hall Hi) as (st & Hst & Hnone).
      cbn in Hnone. by rewrite Hst, Hnone.
Qed.

(** C10. An identifier cell that holds an error string of the prior step
    is not the sentinel: [add_status_to_df] calls [fetch_HMDB_status] on
    it, which requests the status page named by the error string itself,
    and writes the string that call returns.  [extract_hmdb_id] produces
    such cells: when its request raises, it returns ["Error: "] followed
    by the message. *)
Theorem add_status_to_df_error_ids (df : DataFrame) (HMDBid_column : string)
    (cells : list cell) (s : state) (i : nat) (msg : string) :
  Pd.getitem df HMDBid_column = Ok cells →
  cells !! i = Some (CStr ("Error:" +:+ msg)) →
  cell_ne_str (CStr ("Error:" +:+ msg)) "HMDB ID not found" = true
  ∧ (∃ (status : list cell) (s' : state) (st : string),
       add_status_to_df df HMDBid_column s
         = (Ok (Pd.setitem df "HMDB_status" status), s')
       ∧ st_trace s'
         = st_trace s ++ concat (lookup_events <$> take i cells)
           ++ [EvGet ("https://hmdb.ca/metabolites/Error:" +:+ msg) None;
               EvSleep 2]
           ++ concat (lookup_events <$> drop (S i) cells)
       ∧ status !! i = Some (CStr st))
  ∧ (∀ (CASid : string) (s0 : state) (e : exn) (w' : world),
       http_get (hmdb_search_url CASid) None (st_world s0) = (Raised e, w') →
       (extract_hmdb_id (CStr CASid) s0).1 = Ok ("Error: " +:+ exn_msg e)).
Proof.
  intros Hget Hi. split; [done|]. split.
  - destruct (apply_check_and_fetch_status cells s)
      as (status & s' & Hrun & Htrace & Hall).
    destruct (Forall2_lookup_l _ _ _ _ _ Hall Hi) as (st & Hst & Hshape).
    change (cell_ne_str (CStr ("Error:" +:+ msg)) "HMDB ID not found")
      with true in Hshape.
    destruct Hshape as [t ->].
    exists status, s', t. split; [|split; [|done]].
    + unfold add_status_to_df.
      by rewrite run_bind, run_lift, Hget, run_bind, Hrun.
    + rewrite Htrace. f_equal.
      rewrite <- (take_drop_middle _ _ _ Hi) at 1.
      rewrite fmap_app, concat_app. by rewrite fmap_cons.
  - intros CASid s0 e w' Hreq. unfold extract_hmdb_id.
    rewrite run_bind, run_lift. cbn [str_method]. fold (hmdb_search_url CASid).
    unfold try_finally, try_except. rewrite run_bind. unfold requests_get.
    by rewrite Hreq.
Qed.

End Hmdb.

(** ** The properties at the sample data *)

Lemma sample_web_benign : @benign_web sample_web.
Proof.
  intros url timeout n. cbn -[Nat.modulo Nat.eqb String.eqb].
  destruct (n mod 3 =? 2)%nat; [done|]. by destruct (String.eqb _ _).
Qed.


Lemma df_well_formed : df_wf df.
Proof. by repeat constructor. Qed.

Lemma find_invalid_cas_filter_witness :
  (∃ df', @find_invalid_cas sample_web df "CAS Number" sample_start
            = (Ok (Some df'), sample_start)
          ∧ Pd.iterrows df'
            = [(2, [("CAS Number", CStr "123-45-6");
                    ("Chemical", CStr "Fictional Compound")])]
          ∧ (df_columns df').*1 = ["CAS Number"; "Chemical"])
  ∧ @find_invalid_cas sample_web (Pd.head 2 df) "CAS Number" sample_start
    = (Ok None, @MkState sample_web 0%nat [EvPrint "All CASRNs are valid"]).
Proof.
  split.
  - apply (@find_invalid_cas_filter sample_web df "CAS Number"
             [CStr "7732-18-5"; CStr "80-05-7"; CStr "123-45-6"; CStr "50-00-0"]
             sample_start df_well_formed eq_refl).
    by repeat constructor.
  - apply (@find_invalid_cas_filter sample_web (Pd.head 2 df) "CAS Number"
             [CStr "7732-18-5"; CStr "80-05-7"]
             sample_start (head_wf 2 df df_well_formed) eq_refl).
    by repeat constructor.
Defined.


Lemma add_status_to_df_short_circuit_witness :
  ∃ (df' : DataFrame) (status : list cell) (s' : @state sample_web),
    @add_status_to_df sample_web ids_df "HMDB_id" sample_start = (Ok df', s')
    ∧ Pd.getitem df' "HMDB_status" = Ok status
    ∧ st_trace s'
      = [EvGet "https://hmdb.ca/metabolites/HMDB0002111" None; EvSleep 2;
         EvGet "https://hmdb.ca/metabolites/Error: connection refused" None;
         EvSleep 2]
    ∧ status !! 1%nat = Some CNone.
Proof.
  destruct (@add_status_to_df_short_circuit sample_web ids_df "HMDB_id" _
              sample_start eq_refl)
    as (_ & _ & _ & df' & status & s' & Hrun & _ & Hget & Htrace & _ & Hnone).
  exists df', status, s'. split; [exact Hrun|]. split; [exact Hget|].
  split; [exact Htrace|]. by apply Hnone.
Defined.

Lemma add_status_to_df_error_ids_witness :
  ∃ (status : list cell) (s' : @state sample_web) (st : string),
    @add_status_to_df sample_web ids_df "HMDB_id" sample_start
      = (Ok (Pd.setitem ids_df "HMDB_status" status), s')
    ∧ st_trace s'
      = [EvGet "https://hmdb.ca/metabolites/HMDB0002111" None; EvSleep 2;
         EvGet "https://hmdb.ca/metabolites/Error: connection refused" None;
         EvSleep 2]
    ∧ status !! 2%nat = Some (CStr st).
Proof.
  exact (proj1 (proj2 (@add_status_to_df_error_ids sample_web ids_df "HMDB_id"
                         _ sample_start 2%nat " connection refused"
                         eq_refl eq_refl))).
Defined.

(** C7 at a page without the header cell: the function returns an error
    string that carries the message of the [AttributeError], where the
    page with the header cell but no value cell gets ["Not Found"]. *)
Theorem fetch_HMDB_status_missing_header :
  Bs.find th_status (@BeautifulSoup sample_web (hmdb_url (CStr "HMDB0000002")))
    = None
  ∧ (@fetch_HMDB_status sample_web (CStr "HMDB0000002") sample_start).1
    = Ok "Error: 'NoneType' object has no attribute 'find_next_sibling'"
  ∧ (@fetch_HMDB_status sample_web (CStr "HMDB0000001") sample_start).1
    = Ok "Not Found".
Proof. repeat split; reflexivity. Qed.

(** * Further properties of the code *)

(** ** What the checksum detects *)

Lemma digit_value_range (a : ascii) (d : Z) :
  Py.digit_value a = Some d → 0 ≤ d ≤ 9.
Proof.
  unfold Py.digit_value.
  destruct ((48 <=? Z.of_nat (nat_of_ascii a))
            && (Z.of_nat (nat_of_ascii a) <=? 57)) eqn:E; [|done].
  intros [= <-]. apply andb_true_iff in E as [?%Z.leb_le ?%Z.leb_le]. lia.
Qed.

Lemma digit_values_range (s : string) (ds : list Z) :
  digit_values s = Some ds → Forall (λ d, 0 ≤ d ≤ 9) ds.
Proof.
  intros H%digit_values_Forall2.
  induction H as [|a d cs ds Ha _ IH]; constructor; [|done].
  by eapply digit_value_range.
Qed.

(** Two digit lists that share a front part differ in their sums as their
    equally long back parts do. *)
Lemma spec_weighted_sum_app (front l1 l2 : list Z) :
  length l1 = length l2 →
  spec_weighted_sum (front ++ l1) - spec_weighted_sum (front ++ l2)
  = spec_weighted_sum l1 - spec_weighted_sum l2.
Proof.
  intros Hlen. induction front as [|h front IH]; [done|].
  cbn [app spec_weighted_sum length]. rewrite !length_app, Hlen. lia.
Qed.

Lemma spec_validate_shift (ds ds' : list Z) (c : Z) (delta : Z) :
  spec_weighted_sum ds' = spec_weighted_sum ds + delta →
  spec_validate ds c = true →
  spec_validate ds' c = (delta mod 10 =? 0).
Proof.
  unfold spec_validate. intros -> Hv%Z.eqb_eq.
  destruct (delta mod 10 =? 0) eqn:E.
  - apply Z.eqb_eq in E. apply Z.eqb_eq.
    rewrite <- Hv, Z.add_mod, E, Z.add_0_r, Z.mod_mod by lia. done.
  - apply Z.eqb_neq in E. apply Z.eqb_neq. intros H. apply E.
    rewrite <- Hv in H. clear Hv E.
    rewrite Z.add_mod in H by lia.
    pose proof (Z.mod_pos_bound (spec_weighted_sum ds) 10 ltac:(lia)).
    pose proof (Z.mod_pos_bound delta 10 ltac:(lia)).
    remember (spec_weighted_sum ds mod 10) as a.
    remember (delta mod 10) as b.
    assert (a + b < 10 ∨ 10 ≤ a + b) as [Hs|Hs] by lia.
    + rewrite Z.mod_small in H by lia. lia.
    + replace (a + b) with ((a + b - 10) + 1 * 10) in H by lia.
      rewrite Z.mod_add, Z.mod_small in H by lia. lia.
Qed.

(** X1. In a valid number, swapping two neighbouring digits that differ,
    anywhere before the check digit, always gives a number the validator
    rejects. *)
Theorem validate_detects_adjacent_swap (s s' : string) (front back : list Z)
    (x y c : Z) :
  digit_values (stripped s) = Some ((front ++ x :: y :: back) ++ [c]) →
  digit_values (stripped s') = Some ((front ++ y :: x :: back) ++ [c]) →
  x ≠ y →
  validate_cas_number s = Ok true →
  validate_cas_number s' = Ok false.
Proof.
  intros Hs Hs' Hxy Hvalid.
  pose proof (digit_values_range _ _ Hs) as Hr.
  rewrite !Forall_app in Hr. destruct Hr as [[_ Hr] _].
  apply Forall_cons in Hr as [Hx Hr]. apply Forall_cons in Hr as [Hy _].
  rewrite (validate_digits _ _ _ Hs) in Hvalid. injection Hvalid as Hvalid.
  rewrite (validate_digits _ _ _ Hs'). f_equal.
  assert (spec_weighted_sum (front ++ y :: x :: back)
          = spec_weighted_sum (front ++ x :: y :: back) + (y - x)) as Hsum.
  { pose proof (spec_weighted_sum_app front (y :: x :: back) (x :: y :: back)
                  eq_refl) as H.
    cbn [spec_weighted_sum length] in H. lia. }
  rewrite (spec_validate_shift _ _ c (y - x) Hsum Hvalid).
  apply Z.eqb_neq. intros H. apply Z.mod_divide in H; [|lia].
  destruct H as [q Hq]. lia.
Qed.

Lemma validate_detects_adjacent_swap_witness :
  validate_cas_number "7732-18-5" = Ok true
  ∧ validate_cas_number "7723-18-5" = Ok false.
Proof.
  split; [reflexivity|].
  apply (validate_detects_adjacent_swap "7732-18-5" "7723-18-5"
           [7; 7] [1; 8] 3 2 5); [reflexivity|reflexivity|lia|reflexivity].
Defined.

(** X2. In a valid number, replacing the digit that has [w - 1] digits
    between it and the check digit (the digit of weight [w]) by a digit
    that differs from it by [y - x] is noticed exactly when
    [(y - x) * w] is no multiple of 10; a wrong check digit is always
    noticed. *)
Theorem validate_detects_substitution (s s' : string) (front back : list Z)
    (x y c c' : Z) :
  digit_values (stripped s) = Some ((front ++ x :: back) ++ [c]) →
  validate_cas_number s = Ok true →
  (digit_values (stripped s') = Some ((front ++ y :: back) ++ [c]) →
   validate_cas_number s'
   = Ok (((y - x) * Z.of_nat (S (length back))) mod 10 =? 0))
  ∧ (digit_values (stripped s') = Some ((front ++ x :: back) ++ [c']) →
     c' ≠ c → validate_cas_number s' = Ok false).
Proof.
  intros Hs Hvalid.
  rewrite (validate_digits _ _ _ Hs) in Hvalid. injection Hvalid as Hvalid.
  split.
  - intros Hs'. rewrite (validate_digits _ _ _ Hs'). f_equal.
    apply (spec_validate_shift (front ++ x :: back)); [|done].
    pose proof (spec_weighted_sum_app front (y :: back) (x :: back) eq_refl) as H.
    cbn [spec_weighted_sum length] in H. lia.
  - intros Hs' Hc. rewrite (validate_digits _ _ _ Hs'). f_equal.
    unfold spec_validate in *. apply Z.eqb_eq in Hvalid. apply Z.eqb_neq. lia.
Qed.

Lemma validate_detects_substitution_witness :
  validate_cas_number "7932-18-5" = Ok true
  ∧ validate_cas_number "7733-18-5" = Ok false
  ∧ validate_cas_number "7732-18-6" = Ok false.
Proof.
  split; [|split].
  - apply (proj1 (validate_detects_substitution "7732-18-5" "7932-18-5"
                    [7] [3; 2; 1; 8] 7 9 5 5 eq_refl eq_refl)). reflexivity.
  - apply (proj1 (validate_detects_substitution "7732-18-5" "7733-18-5"
                    [7; 7; 3] [1; 8] 2 3 5 5 eq_refl eq_refl)). reflexivity.
  - apply (proj2 (validate_detects_substitution "7732-18-5" "7732-18-6"
                    [7; 7; 3] [1; 8] 2 2 5 6 eq_refl eq_refl));
      [reflexivity|lia].
Defined.

(** X3. Zeros put in front of a number with at least one digit do not
    change the answer. *)
Theorem validate_ignores_leading_zero (s : string) :
  well_formed s = true →
  validate_cas_number (String "0" s) = validate_cas_number s.
Proof.
  unfold well_formed.
  destruct (digit_values (stripped s)) as [ds|] eqn:Hd; [|done].
  destruct ds as [|c ds _] using rev_ind; [done|]. intros _.
  rewrite (validate_digits s ds c Hd).
  rewrite (validate_digits (String "0" s) (0 :: ds) c).
  - unfold spec_validate.
    by replace (spec_weighted_sum (0 :: ds)) with (spec_weighted_sum ds)
      by (cbn [spec_weighted_sum]; lia).
  - unfold stripped in *. cbn. by rewrite Hd.
Qed.

Lemma validate_ignores_leading_zero_witness :
  validate_cas_number "050-00-0" = validate_cas_number "50-00-0".
Proof. apply validate_ignores_leading_zero. reflexivity. Defined.

(** ** More on the table filter *)

Lemma digit_values_nil (s : string) : digit_values s = Some [] → s = "".
Proof.
  destruct s as [|a s]; [done|]. cbn.
  destruct (Py.digit_value a); [|done]. cbn.
  by destruct (digit_values s).
Qed.

Lemma validate_ill_formed (t : string) :
  well_formed t = false →
  ∃ e, validate_cas_number t = Raised e
       ∧ exn_class_of e
         = if String.eqb (stripped t) "" then IndexError else ValueError.
Proof.
  unfold well_formed. destruct (digit_values (stripped t)) as [ds|] eqn:Hd.
  - destruct ds; [|done]. intros _. apply digit_values_nil in Hd.
    rewrite (validate_empty _ Hd), Hd. by eexists.
  - intros _. assert (stripped t ≠ "") as Hne by (by intros E; rewrite E in Hd).
    destruct (validate_not_digits _ Hne Hd) as [msg ->].
    apply String.eqb_neq in Hne. rewrite Hne. by eexists.
Qed.

Lemma select_length_eq {A B} (mask : list bool) (l1 : list A) (l2 : list B) :
  length mask = length l1 → length mask = length l2 →
  length (Pd.select mask l1) = length (Pd.select mask l2).
Proof.
  revert l1 l2. induction mask as [|b mask IH]; intros [|x l1] [|y l2]; try done.
  cbn. intros [= H1] [= H2]. destruct b; cbn; by rewrite (IH l1 l2).
Qed.

Lemma select_sublist {A} (mask : list bool) (l : list A) :
  Pd.select mask l `sublist_of` l.
Proof.
  revert l. induction mask as [|b mask IH]; intros [|x l]; cbn;
    try apply sublist_nil_l.
  destruct b; [apply sublist_skip|apply sublist_cons]; apply IH.
Qed.

Lemma select_all {A} (l : list A) (k : nat) :
  length l = k → Pd.select (replicate k true) l = l.
Proof.
  revert k. induction l as [|x l IH]; intros [|k]; try done.
  cbn. intros [= H]. by rewrite IH.
Qed.

Lemma assoc_map_columns {A B} (f : A → B) (key : string)
    (cols : list (string * A)) :
  Py.assoc key (map (λ '(name, v), (name, f v)) cols) = f <$> Py.assoc key cols.
Proof.
  induction cols as [|[name v] cols IH]; [done|]. cbn.
  by destruct (String.eqb name key).
Qed.

Lemma filter_rows_wf (df : DataFrame) (mask : list bool) :
  df_wf df → length mask = length (df_index df) →
  df_wf (Pd.filter_rows df mask).
Proof.
  unfold df_wf. cbn. intros Hwf Hlen. apply Forall_fmap.
  eapply Forall_impl; [exact Hwf|]. intros [name cells] Hc. cbn in *.
  apply select_length_eq; congruence.
Qed.

Lemma rejected_cells_mask (cells : list cell) (mask : list bool) :
  Forall2 (λ c b, str_method "replace" validate_cas_number c = Ok b) cells mask →
  Forall2 (λ c b, str_method "replace" validate_cas_number c = Ok b)
          (Pd.select (map negb mask) cells)
          (replicate (length (Pd.select (map negb mask) cells)) false).
Proof.
  induction 1 as [|c b cells mask Hc _ IH]; [constructor|].
  cbn. destruct b; cbn; [done|]. by constructor.
Qed.

Section FindInvalidMore.
Context `{W : Web}.

Lemma apply_lift_raise {A B} (f : A → result B) (pre : list A) (c : A)
    (post : list A) (ys : list B) (e : exn) (s : state) :
  Forall2 (λ c y, f c = Ok y) pre ys → f c = Raised e →
  apply (λ c, lift (f c)) (pre ++ c :: post) s = (Raised e, s).
Proof.
  intros Hpre Hc. induction Hpre as [|x y pre ys Hx _ IH]; cbn [app apply].
  - by rewrite run_bind, run_lift, Hc.
  - by rewrite run_bind, run_lift, Hx, run_bind, IH.
Qed.

Lemma find_invalid_cas_run (df : DataFrame) (column : string)
    (cells : list cell) (mask : list bool) (s : state) :
  Pd.getitem df column = Ok cells →
  Forall2 (λ c b, str_method "replace" validate_cas_number c = Ok b) cells mask →
  find_invalid_cas df column s =
    if Pd.empty (Pd.filter_rows df (map negb mask))
    then (Ok None,
          MkState (st_world s) (st_trace s ++ [EvPrint "All CASRNs are valid"]))
    else (Ok (Some (Pd.filter_rows df (map negb mask))), s).
Proof.
  intros Hget Hmask. unfold find_invalid_cas.
  rewrite run_bind, run_lift, Hget.
  rewrite run_bind, (apply_lift_ok _ _ _ _ Hmask).
  by destruct (Pd.empty _).
Qed.

(** X4. [find_invalid_cas] gives up on the first cell it cannot validate.
    A column that is not in the frame raises [KeyError]; otherwise the
    first cell, in row order, that is [None] or is not made of digits and
    hyphens with at least one digit raises ([AttributeError] for [None],
    [IndexError] for text with no character besides hyphens, [ValueError]
    for any other text), whatever the rows after it hold.  No frame comes
    back and nothing is printed. *)
Theorem find_invalid_cas_raises (df : DataFrame) (column : string) (s : state) :
  (Py.assoc column (df_columns df) = None →
   find_invalid_cas df column s
   = (Raised (Raise KeyError ("'" +:+ column +:+ "'")), s))
  ∧ (∀ (pre : list cell) (c : cell) (post : list cell),
       Pd.getitem df column = Ok (pre ++ c :: post) →
       Forall (λ c, well_formed_cell c = true) pre →
       well_formed_cell c = false →
       ∃ e, find_invalid_cas df column s = (Raised e, s)
            ∧ exn_class_of e
              = match c with
                | CNone => AttributeError
                | CStr t =>
                    if String.eqb (stripped t) "" then IndexError
                    else ValueError
                end).
Proof.
  split.
  - intros Hnone. unfold find_invalid_cas, Pd.getitem.
    by rewrite run_bind, run_lift, Hnone.
  - intros pre c post Hget Hpre Hc.
    destruct (valid_mask_exists pre Hpre) as [mask Hmask].
    assert (∃ e, str_method "replace" validate_cas_number c = Raised e
                 ∧ exn_class_of e
                   = match c with
                     | CNone => AttributeError
                     | CStr t =>
                         if String.eqb (stripped t) "" then IndexError
                         else ValueError
                     end) as (e & He & Hclass).
    { destruct c as [t|]; [by apply validate_ill_formed|by eexists]. }
    exists e. split; [|done]. unfold find_invalid_cas.
    rewrite run_bind, run_lift, Hget, run_bind.
    by rewrite (apply_lift_raise _ _ _ _ _ _ _ Hmask He).
Qed.

(** X5. The frame [find_invalid_cas] returns keeps the frame invariant,
    its labels are a sub-sequence of the labels it was given, and nothing
    was printed; asked again about that frame, the function returns the
    same frame. *)
Theorem find_invalid_cas_again (df : DataFrame) (column : string)
    (cells : list cell) (s s' : state) (df' : DataFrame) :
  df_wf df →
  Pd.getitem df column = Ok cells →
  Forall (λ c, well_formed_cell c = true) cells →
  find_invalid_cas df column s = (Ok (Some df'), s') →
  s' = s
  ∧ df_wf df'
  ∧ df_index df' `sublist_of` df_index df
  ∧ find_invalid_cas df' column s = (Ok (Some df'), s).
Proof.
  intros Hwf Hget Hcells Hrun.
  destruct (valid_mask_exists cells Hcells) as [mask Hmask].
  pose proof (getitem_length _ _ _ Hwf Hget) as Hlen.
  pose proof (Forall2_length _ _ _ Hmask) as Hlm.
  rewrite (find_invalid_cas_run _ _ _ _ _ Hget Hmask) in Hrun.
  set (m := map negb mask) in *.
  destruct (Pd.empty (Pd.filter_rows df m)) eqn:Hempty; [done|].
  injection Hrun as <- <-.
  assert (df_wf (Pd.filter_rows df m)) as Hwf'.
  { apply filter_rows_wf; [done|]. unfold m, Pd.len in *. rewrite length_map. lia. }
  split; [done|]. split; [done|]. split; [apply select_sublist|].
  assert (Pd.getitem (Pd.filter_rows df m) column = Ok (Pd.select m cells))
    as Hget'.
  { unfold Pd.getitem. cbn. rewrite assoc_map_columns.
    by rewrite (getitem_Some _ _ _ Hget). }
  rewrite (find_invalid_cas_run _ _ _ _ _ Hget' (rejected_cells_mask _ _ Hmask)).
  fold m.
  assert (map negb (replicate (length (Pd.select m cells)) false)
          = replicate (length (df_index (Pd.filter_rows df m))) true) as ->.
  { change (map negb ?l) with (negb <$> l). rewrite fmap_replicate. cbn. f_equal.
    apply select_length_eq; unfold m, Pd.len in *; rewrite length_map; lia. }
  assert (Pd.filter_rows (Pd.filter_rows df m)
            (replicate (length (df_index (Pd.filter_rows df m))) true)
          = Pd.filter_rows df m) as ->.
  { unfold Pd.filter_rows at 1. rewrite select_all by done.
    destruct (Pd.filter_rows df m) as [idx cols] eqn:E. cbn in *. f_equal.
    unfold df_wf in Hwf'. cbn in Hwf'. clear -Hwf'.
    induction Hwf' as [|[name cs] cols Hc _ IH]; [done|].
    cbn in *. by rewrite IH, select_all. }
  by rewrite Hempty.
Qed.

End FindInvalidMore.

(** ** More on the HMDB lookups *)


Section HmdbMore.
Context `{W : Web}.

Lemma extract_hmdb_id_run (CASid : string) (s : state) :
  extract_hmdb_id (CStr CASid) s =
    (Ok (hmdb_id_result (hmdb_search_url CASid)
           (http_get (hmdb_search_url CASid) None (st_world s)).1),
     MkState (http_get (hmdb_search_url CASid) None (st_world s)).2
             (st_trace s ++ search_events CASid)).
Proof.
  unfold extract_hmdb_id, search_events.
  rewrite run_bind, run_lift. cbn [str_method]. fold (hmdb_search_url CASid).
  unfold try_finally, try_except. rewrite run_bind. unfold requests_get.
  destruct (http_get (hmdb_search_url CASid) None (st_world s)) as [[r|e] w'];
    cbn [fst snd hmdb_id_result any_exception].
  - rewrite run_bind. unfold raise_for_status.
    destruct ((400 <=? status_code r) && (status_code r <? 600)).
    + cbn. by rewrite <- app_assoc.
    + rewrite run_ret.
      destruct (Bs.find (Bs.has_attr "class" "result-link") _) as [link|];
        [|cbn; by rewrite <- app_assoc].
      destruct (Bs.find (Bs.has_name "a") _) as [a|];
        [|cbn; by rewrite <- app_assoc].
      destruct (Bs.get "href" a) as [[href|tokens]|];
        cbn; by rewrite <- app_assoc.
  - cbn. by rewrite <- app_assoc.
Qed.

Lemma extract_hmdb_id_none (s : state) :
  extract_hmdb_id CNone s =
    (Raised (Raise AttributeError "'NoneType' object has no attribute 'strip'"),
     s).
Proof. reflexivity. Qed.

(** The rows of a column of strings, searched one after the other. *)
Lemma apply_extract_hmdb_id (cas : list string) :
  ∀ s : state,
    ∃ (ids : list string) (s' : state),
      apply extract_hmdb_id (CStr <$> cas) s = (Ok ids, s')
      ∧ length ids = length cas
      ∧ st_trace s' = st_trace s ++ concat (search_events <$> cas).
Proof.
  induction cas as [|c cas IH]; intros s.
  - exists [], s. by rewrite app_nil_r.
  - destruct (IH (MkState (http_get (hmdb_search_url c) None (st_world s)).2
                          (st_trace s ++ search_events c)))
      as (ids & s' & Hrest & Hlen & Htrace).
    eexists (_ :: ids), s'. cbn [fmap list_fmap apply].
    rewrite run_bind, extract_hmdb_id_run, run_bind, Hrest.
    split; [done|]. split; [cbn; by rewrite Hlen|].
    rewrite Htrace. cbn [st_trace concat fmap list_fmap]. by rewrite app_assoc.
Qed.



(** X8. On a frame whose [casId_final] column holds strings,
    [add_HMDBid_to_df] never raises.  The frame it returns has the same
    row labels, an [HMDB_id] column with one string per row, every other
    column as it was, and keeps the frame invariant; each row costs one
    search request and one pause, in row order. *)
Theorem add_HMDBid_to_df_frame (df : DataFrame) (cas : list string) (s : state) :
  df_wf df →
  Pd.getitem df "casId_final" = Ok (CStr <$> cas) →
  ∃ (df' : DataFrame) (ids : list string) (s' : state),
    add_HMDBid_to_df df s = (Ok df', s')
    ∧ df_index df' = df_index df
    ∧ df_wf df'
    ∧ Pd.getitem df' "HMDB_id" = Ok (CStr <$> ids)
    ∧ length ids = Pd.len df
    ∧ (∀ other, other ≠ "HMDB_id" →
         Pd.getitem df' other = Pd.getitem df other)
    ∧ st_trace s' = st_trace s ++ concat (search_events <$> cas).
Proof.
  intros Hwf Hget.
  pose proof (getitem_length _ _ _ Hwf Hget) as Hlen.
  rewrite length_fmap in Hlen.
  destruct (apply_extract_hmdb_id cas s) as (ids & s' & Hrun & Hids & Htrace).
  exists (Pd.setitem df "HMDB_id" (CStr <$> ids)), ids, s'.
  split; [|split; [done|split; [|split; [|split; [lia|split; [|done]]]]]].
  - unfold add_HMDBid_to_df. by rewrite run_bind, run_lift, Hget, run_bind, Hrun.
  - apply setitem_wf; [done|]. rewrite length_fmap. lia.
  - apply (getitem_setitem df "HMDB_id" "HMDB_id").
  - intros other. apply getitem_setitem.
Qed.

(** X9. [add_HMDBid_to_df] stops where it cannot go on.  Without a
    [casId_final] column it raises [KeyError] before any request.  At the
    first [None] of the column it raises [AttributeError]: the rows before
    it have been searched, the row itself and the rows after it have not,
    and no frame comes back. *)
Theorem add_HMDBid_to_df_stops (df : DataFrame) (s : state) :
  (Py.assoc "casId_final" (df_columns df) = None →
   add_HMDBid_to_df df s = (Raised (Raise KeyError "'casId_final'"), s))
  ∧ (∀ (pre : list string) (post : list cell),
       Pd.getitem df "casId_final" = Ok ((CStr <$> pre) ++ CNone :: post) →
       ∃ s' : state,
         add_HMDBid_to_df df s
           = (Raised (Raise AttributeError
                        "'NoneType' object has no attribute 'strip'"), s')
         ∧ st_trace s' = st_trace s ++ concat (search_events <$> pre)).
Proof.
  split.
  - intros Hnone. unfold add_HMDBid_to_df, Pd.getitem.
    by rewrite run_bind, run_lift, Hnone.
  - intros pre post Hget. unfold add_HMDBid_to_df.
    rewrite run_bind, run_lift, Hget, run_bind. clear Hget.
    revert s. induction pre as [|c pre IH]; intros s.
    + exists s. cbn [fmap list_fmap app apply].
      rewrite run_bind, extract_hmdb_id_none. by rewrite app_nil_r.
    + destruct (IH (MkState (http_get (hmdb_search_url c) None (st_world s)).2
                            (st_trace s ++ search_events c)))
        as (s' & Hrun & Htrace).
      exists s'. cbn [fmap list_fmap app apply].
      rewrite run_bind, extract_hmdb_id_run, run_bind.
      destruct (apply extract_hmdb_id _ _) as [[ids|e] s1] eqn:E; [done|].
      injection Hrun as -> ->. split; [done|].
      rewrite Htrace. cbn [st_trace concat fmap list_fmap]. by rewrite app_assoc.
Qed.

(** X10. [add_status_to_df] never raises once the identifier column is
    there, and raises [KeyError] before any request when it is not.  The
    frame it returns has the same row labels, an [HMDB_status] column with
    one cell per row (written over an older column of that name), every
    other column as it was, and keeps the frame invariant. *)
Theorem add_status_to_df_frame (df : DataFrame) (HMDBid_column : string)
    (s : state) :
  (Py.assoc HMDBid_column (df_columns df) = None →
   add_status_to_df df HMDBid_column s
   = (Raised (Raise KeyError ("'" +:+ HMDBid_column +:+ "'")), s))
  ∧ (∀ cells : list cell,
       df_wf df → Pd.getitem df HMDBid_column = Ok cells →
       ∃ (df' : DataFrame) (status : list cell) (s' : state),
         add_status_to_df df HMDBid_column s = (Ok df', s')
         ∧ df_index df' = df_index df
         ∧ df_wf df'
         ∧ Pd.getitem df' "HMDB_status" = Ok status
         ∧ length status = Pd.len df
         ∧ (∀ other, other ≠ "HMDB_status" →
              Pd.getitem df' other = Pd.getitem df other)).
Proof.
  split.
  - intros Hnone. unfold add_status_to_df, Pd.getitem.
    by rewrite run_bind, run_lift, Hnone.
  - intros cells Hwf Hget.
    pose proof (getitem_length _ _ _ Hwf Hget) as Hlen.
    destruct (apply_check_and_fetch_status cells s)
      as (status & s' & Hrun & _ & Hall).
    apply Forall2_length in Hall.
    exists (Pd.setitem df "HMDB_status" status), status, s'.
    split; [|split; [done|split; [|split; [|split; [lia|]]]]].
    + unfold add_status_to_df.
      by rewrite run_bind, run_lift, Hget, run_bind, Hrun.
    + apply setitem_wf; [done|lia].
    + apply (getitem_setitem df "HMDB_status" "HMDB_status").
    + intros other. apply getitem_setitem.
Qed.

(** X11. The two HMDB drivers one after the other, on a frame whose
    [casId_final] column holds strings: neither raises; the result has an
    identifier and a status for every row; the status is [None] exactly
    for the rows whose identifier is ["HMDB ID not found"]; the CAS column
    is as it was; and the requests are one search per row followed by one
    status lookup per row whose identifier is not that sentinel. *)
Theorem hmdb_pipeline (df : DataFrame) (cas : list string) (s : state) :
  df_wf df →
  Pd.getitem df "casId_final" = Ok (CStr <$> cas) →
  ∃ (df1 df2 : DataFrame) (s1 s2 : state) (ids : list string)
    (status : list cell),
    add_HMDBid_to_df df s = (Ok df1, s1)
    ∧ add_status_to_df df1 "HMDB_id" s1 = (Ok df2, s2)
    ∧ df_index df2 = df_index df
    ∧ Pd.getitem df2 "casId_final" = Ok (CStr <$> cas)
    ∧ Pd.getitem df2 "HMDB_id" = Ok (CStr <$> ids)
    ∧ Pd.getitem df2 "HMDB_status" = Ok status
    ∧ Forall2 (λ id st, (id = "HMDB ID not found" → st = CNone)
                        ∧ (id ≠ "HMDB ID not found" → ∃ t, st = CStr t))
              ids status
    ∧ length ids = length cas
    ∧ st_trace s2
      = st_trace s ++ concat (search_events <$> cas)
        ++ concat (lookup_events <$> (CStr <$> ids)).
Proof.
  intros Hwf Hget.
  destruct (apply_extract_hmdb_id cas s) as (ids & s1 & Hrun1 & Hids & Ht1).
  destruct (apply_check_and_fetch_status (CStr <$> ids) s1)
    as (status & s2 & Hrun2 & Ht2 & Hall).
  set (df1 := Pd.setitem df "HMDB_id" (CStr <$> ids)).
  assert (Pd.getitem df1 "HMDB_id" = Ok (CStr <$> ids)) as Hget1
    by apply (getitem_setitem df "HMDB_id" "HMDB_id").
  exists df1, (Pd.setitem df1 "HMDB_status" status), s1, s2, ids, status.
  split; [|split; [|split; [done|split; [|split; [|split; [|split; [|split]]]]]]].
  - unfold add_HMDBid_to_df.
    by rewrite run_bind, run_lift, Hget, run_bind, Hrun1.
  - unfold add_status_to_df.
    by rewrite run_bind, run_lift, Hget1, run_bind, Hrun2.
  - rewrite (proj2 (getitem_setitem df1 "HMDB_status" "casId_final" status))
      by done.
    unfold df1.
    by rewrite (proj2 (getitem_setitem df "HMDB_id" "casId_final" _)) by done.
  - by rewrite (proj2 (getitem_setitem df1 "HMDB_status" "HMDB_id" status))
      by done.
  - apply (getitem_setitem df1 "HMDB_status" "HMDB_status").
  - apply Forall2_fmap_l in Hall.
    eapply Forall2_impl; [exact Hall|]. intros id st Hst. cbn in Hst.
    destruct (String.eqb id "HMDB ID not found") eqn:E; cbn in Hst.
    + apply String.eqb_eq in E. split; [done|]. intros Hne. by destruct Hne.
    + apply String.eqb_neq in E. split; [|done]. intros Heq. by destruct E.
  - done.
  - by rewrite Ht2, Ht1, <- app_assoc.
Qed.

End HmdbMore.

(** ** More on the PubMed loop *)

Lemma assoc_row_at_None (column : string) (cols : list (string * list cell))
    (i : nat) :
  Py.assoc column cols = None → Py.assoc column (Pd.row_at cols i) = None.
Proof.
  unfold Pd.row_at. induction cols as [|[name v] cols IH]; [done|].
  cbn. destruct (String.eqb name column) eqn:E; [done|].
  intros H. destruct (v !! i); cbn; [rewrite E|]; by apply IH.
Qed.

Lemma iterrows_row (df : DataFrame) (lbl : Z) (r : row) :
  (lbl, r) ∈ Pd.iterrows df → ∃ i, r = Pd.row_at (df_columns df) i.
Proof.
  unfold Pd.iterrows. intros (i & Hi)%list_elem_of_lookup.
  rewrite list_lookup_imap in Hi.
  destruct (df_index df !! i); [|done]. cbn in Hi. injection Hi as _ <-.
  by exists i.
Qed.

Section PubMedMore.
Context `{W : Web}.
Variables (search_url NAME : string) (search_string : option string).
Variable resume_from : Z.

Local Abbreviation body :=
  (PubMed_loop_body search_url NAME search_string resume_from).
Local Abbreviation url := (pubmed_url search_url search_string).
Local Abbreviation get_event := (λ u : string, EvGet u (Some 20)).
Local Abbreviation run :=
  (PubMed_results_biomon_terms search_url).

Lemma loop_skip_labels (rows : list (Z * row)) (acc : list entry) (s : state) :
  Forall (λ x, x.1 < resume_from) rows →
  for_each rows body acc s = (Ok acc, s).
Proof.
  induction 1 as [|[lbl r] rows Hlt _ IH]; [done|].
  cbn in Hlt. cbn [for_each]. rewrite run_bind. unfold PubMed_loop_body at 1.
  by rewrite (proj2 (Z.ltb_lt _ _) Hlt).
Qed.

(** The first row that is not passed over decides how a run starts. *)
Lemma run_first_row (df : DataFrame) (skipped : list (Z * row)) (lbl : Z)
    (r : row) (rest : list (Z * row)) (s : state) :
  Pd.iterrows df = skipped ++ (lbl, r) :: rest →
  Forall (λ x, x.1 < resume_from) skipped →
  run df NAME search_string resume_from s =
    match body (lbl, r) (replicate (Pd.len df) (EStr "NA")) s with
    | (Ok acc, s') => for_each rest body acc s'
    | (Raised e, s') => (Raised e, s')
    end.
Proof.
  intros Hrows Hskip. unfold PubMed_results_biomon_terms.
  rewrite Hrows, for_each_app, (loop_skip_labels _ _ _ Hskip).
  cbn [for_each]. by rewrite run_bind.
Qed.




(** X12. What [PubMed_results_biomon_terms] does before its first request.
    When every row label is below [resume_from] it returns the list of
    ['NA'] without a request, whether or not the name column exists
    (an empty frame is one such case).  Otherwise the first row, in row
    order, whose label is not below [resume_from] is looked at: a missing
    name column raises [KeyError] and a [None] name raises
    [AttributeError], in both cases before any request. *)
Theorem PubMed_before_first_request (df : DataFrame) (s : state) :
  (Forall (λ lbl, lbl < resume_from) (df_index df) →
   run df NAME search_string resume_from s
   = (Ok (replicate (Pd.len df) (EStr "NA")), s))
  ∧ (∀ (skipped : list (Z * row)) (lbl : Z) (r : row) (rest : list (Z * row)),
       Pd.iterrows df = skipped ++ (lbl, r) :: rest →
       Forall (λ x, x.1 < resume_from) skipped →
       resume_from ≤ lbl →
       (Py.assoc NAME (df_columns df) = None →
        run df NAME search_string resume_from s
        = (Raised (Raise KeyError ("'" +:+ NAME +:+ "'")), s))
       ∧ (Pd.row_getitem r NAME = Ok CNone →
          run df NAME search_string resume_from s
          = (Raised (Raise AttributeError
                       "'NoneType' object has no attribute 'replace'"), s))).
Proof.
  split.
  - intros Hall. unfold PubMed_results_biomon_terms. apply loop_skip_labels.
    unfold Pd.iterrows. apply Forall_lookup. intros i [lbl r] Hi.
    rewrite list_lookup_imap in Hi.
    destruct (df_index df !! i) as [l|] eqn:Hl; [|done].
    cbn in Hi. injection Hi as <- <-. cbn.
    by eapply (proj1 (Forall_lookup _ _) Hall).
  - intros skipped lbl r rest Hrows Hskip Hlbl.
    rewrite (run_first_row _ _ _ _ _ _ Hrows Hskip).
    unfold PubMed_loop_body. rewrite (proj2 (Z.ltb_ge _ _)); [|lia].
    split.
    + intros Hnone.
      destruct (iterrows_row df lbl r) as [i ->].
      { rewrite Hrows. apply elem_of_app. right. by left. }
      rewrite run_bind, run_lift. unfold Pd.row_getitem.
      by rewrite (assoc_row_at_None _ _ _ Hnone).
    + intros Hname. by rewrite run_bind, run_lift, Hname, run_bind, run_lift.
Qed.


End PubMedMore.

Section PubMedFailure.
Context `{W : Web}.
Variables (search_url NAME : string) (search_string : option string).
Variable k : nat.
Variables (cols : list (string * list cell)) (names : list string).
Hypothesis Hcol : Py.assoc NAME cols = Some (CStr <$> names).

Local Abbreviation body :=
  (PubMed_loop_body search_url NAME search_string (Z.of_nat k)).
Local Abbreviation url := (pubmed_url search_url search_string).
Local Abbreviation get_event := (λ u : string, EvGet u (Some 20)).


End PubMedFailure.

Section PubMedStops.
Context `{W : Web}.
Variables (search_url NAME : string) (search_string : option string).

Local Abbreviation url := (pubmed_url search_url search_string).
Local Abbreviation get_event := (λ u : string, EvGet u (Some 20)).
Local Abbreviation run :=
  (PubMed_results_biomon_terms search_url).


End PubMedStops.

(** ** Stripping *)

Lemma rev_app_rev_app (s t u : string) :
  String.rev_app (String.rev_app s t) u = String.rev_app t (s +:+ u).
Proof.
  revert t u. induction s as [|a s IH]; intros t u; [done|].
  cbn [String.rev_app]. by rewrite IH.
Qed.

Lemma string_rev_involutive (s : string) : String.rev (String.rev s) = s.
Proof.
  unfold String.rev. rewrite rev_app_rev_app. cbn. apply append_empty_r.
Qed.

Lemma append_assoc (s t u : string) : (s +:+ t) +:+ u = s +:+ t +:+ u.
Proof.
  induction s as [|a s IH]; [done|]. by rewrite !append_cons, IH.
Qed.

Lemma rev_app_append (s t : string) :
  String.rev_app s t = String.rev s +:+ t.
Proof.
  unfold String.rev. revert t. induction s as [|a s IH]; intros t; [done|].
  cbn [String.rev_app]. rewrite (IH (String a t)), (IH (String a "")).
  by rewrite append_assoc.
Qed.

Lemma rev_app_of_append (x y z : string) :
  String.rev_app (x +:+ y) z = String.rev_app y (String.rev_app x z).
Proof.
  revert z. induction x as [|b x IH]; intros z; [done|].
  rewrite append_cons. cbn [String.rev_app]. apply IH.
Qed.

Lemma string_rev_snoc (x : string) (a : ascii) :
  String.rev (x +:+ String a "") = String a (String.rev x).
Proof. unfold String.rev. by rewrite rev_app_of_append. Qed.

Lemma lstrip_snoc (drop : ascii → bool) (x : string) (a : ascii) :
  drop a = false →
  Py.lstrip drop (x +:+ String a "") = Py.lstrip drop x +:+ String a "".
Proof.
  intros Ha. induction x as [|b x IH].
  - rewrite append_nil. cbn. by rewrite Ha.
  - rewrite append_cons. cbn. destruct (drop b); [done|]. by rewrite append_cons.
Qed.

Lemma lstrip_left_clean (drop : ascii → bool) (s : string) :
  left_clean drop (Py.lstrip drop s).
Proof.
  induction s as [|a s IH]; [done|]. cbn.
  destruct (drop a) eqn:E; [done|]. exact E.
Qed.

Lemma lstrip_fixed (drop : ascii → bool) (s : string) :
  left_clean drop s → Py.lstrip drop s = s.
Proof. destruct s as [|a s]; [done|]. cbn. by intros ->. Qed.

Lemma rstrip_left_clean (drop : ascii → bool) (s : string) :
  left_clean drop s → left_clean drop (Py.rstrip drop s).
Proof.
  destruct s as [|a s]; [done|]. intros Ha. change (drop a = false) in Ha.
  unfold Py.rstrip.
  assert (String.rev (String a s) = String.rev s +:+ String a "") as ->.
  { unfold String.rev. cbn [String.rev_app]. apply rev_app_append. }
  rewrite (lstrip_snoc _ _ _ Ha), string_rev_snoc. exact Ha.
Qed.

Lemma rstrip_idempotent (drop : ascii → bool) (s : string) :
  Py.rstrip drop (Py.rstrip drop s) = Py.rstrip drop s.
Proof.
  unfold Py.rstrip. rewrite string_rev_involutive.
  by rewrite (lstrip_fixed _ _ (lstrip_left_clean drop _)).
Qed.

Lemma strip_idempotent (drop : ascii → bool) (s : string) :
  Py.strip drop (Py.strip drop s) = Py.strip drop s.
Proof.
  unfold Py.strip.
  rewrite (lstrip_fixed drop (Py.rstrip drop (Py.lstrip drop s))).
  - apply rstrip_idempotent.
  - apply rstrip_left_clean, lstrip_left_clean.
Qed.

Section Stripped.
Context `{W : Web}.

(** X15. [extract_hmdb_id] does the same on a CAS number and on that
    number with its surrounding single quotes removed: the same request,
    the same result, the same state. *)
Theorem extract_hmdb_id_ignores_quotes (CASid : string) (s : state) :
  extract_hmdb_id (CStr (Py.strip (Ascii.eqb "'") CASid)) s
  = extract_hmdb_id (CStr CASid) s.
Proof.
  rewrite !extract_hmdb_id_run.
  assert (hmdb_search_url (Py.strip (Ascii.eqb "'") CASid)
          = hmdb_search_url CASid) as Hurl.
  { unfold hmdb_search_url. by rewrite strip_idempotent. }
  assert (search_events (Py.strip (Ascii.eqb "'") CASid) = search_events CASid)
    as Hev by (unfold search_events; by rewrite Hurl).
  by rewrite Hurl, Hev.
Qed.

(** X16. A status that [fetch_HMDB_status] reads off a page has no white
    space left at either end: stripping it again changes nothing. *)
Theorem fetch_HMDB_status_is_stripped (hmdb_id : cell) (s : state)
    (r : response) (w' : world) (th td : Bs.tag) :
  http_get (hmdb_url hmdb_id) None (st_world s) = (Ok r, w') →
  ¬ 400 ≤ status_code r < 600 →
  Bs.find th_status (BeautifulSoup (resp_text r)) = Some th →
  Bs.find_next_sibling "td" th = Some td →
  ∃ status : string,
    (fetch_HMDB_status hmdb_id s).1 = Ok status
    ∧ status = Py.strip Py.is_space (Bs.text td)
    ∧ Py.strip Py.is_space status = status.
Proof.
  intros Hget Hcode Hth Htd. rewrite fetch_HMDB_status_run, Hget. cbn.
  assert ((400 <=? status_code r) && (status_code r <? 600) = false) as ->.
  { apply andb_false_iff.
    destruct (Z.leb_spec 400 (status_code r)); [right|by left].
    apply Z.ltb_ge. lia. }
  rewrite Hth, Htd. eexists. split; [done|]. split; [done|].
  apply strip_idempotent.
Qed.

End Stripped.

(** ** The further properties at the sample data *)

Lemma find_invalid_cas_raises_witness :
  ∃ e, @find_invalid_cas sample_web holed_df "CAS Number" sample_start
       = (Raised e, sample_start)
       ∧ exn_class_of e = AttributeError.
Proof.
  apply (proj2 (@find_invalid_cas_raises sample_web holed_df "CAS Number"
                  sample_start)
           [CStr "50-00-0"] CNone [CStr "80-05-7"]);
    [reflexivity|by repeat constructor|reflexivity].
Defined.

Lemma find_invalid_cas_again_witness :
  @find_invalid_cas sample_web invalid_cas_df "CAS Number" sample_start
  = (Ok (Some invalid_cas_df), sample_start).
Proof.
  apply (@find_invalid_cas_again sample_web df "CAS Number"
           [CStr "7732-18-5"; CStr "80-05-7"; CStr "123-45-6"; CStr "50-00-0"]
           sample_start sample_start invalid_cas_df df_well_formed eq_refl);
    [by repeat constructor|reflexivity].
Defined.



Lemma add_HMDBid_to_df_frame_witness :
  ∃ (df' : DataFrame) (s' : @state refusing_web),
    @add_HMDBid_to_df refusing_web cas_df refusing_start = (Ok df', s')
    ∧ df_index df' = [0; 1; 2]
    ∧ Pd.getitem df' "Chemical" = Pd.getitem cas_df "Chemical"
    ∧ length (st_trace s') = 6%nat.
Proof.
  destruct (@add_HMDBid_to_df_frame refusing_web cas_df
              ["'50-00-0'"; "80-05-7"; "123-45-6"] refusing_start
              ltac:(by repeat constructor) eq_refl)
    as (df' & ids & s' & Hrun & Hidx & _ & _ & _ & Hother & Htrace).
  exists df', s'. split; [exact Hrun|]. split; [exact Hidx|].
  split; [by apply Hother|]. rewrite Htrace. reflexivity.
Defined.

Lemma add_HMDBid_to_df_stops_witness :
  ∃ s' : @state refusing_web,
    @add_HMDBid_to_df refusing_web holed_df refusing_start
      = (Raised (Raise AttributeError
                   "'NoneType' object has no attribute 'strip'"), s')
    ∧ st_trace s' = [EvGet (hmdb_search_url "50-00-0") None; EvSleep 2].
Proof.
  exact (proj2 (@add_HMDBid_to_df_stops refusing_web holed_df refusing_start)
           ["50-00-0"] [CStr "80-05-7"] eq_refl).
Defined.

Lemma add_status_to_df_frame_witness :
  ∃ (df' : DataFrame) (status : list cell) (s' : @state sample_web),
    @add_status_to_df sample_web ids_df "HMDB_id" sample_start = (Ok df', s')
    ∧ df_index df' = [0; 1; 2]
    ∧ Pd.getitem df' "HMDB_status" = Ok status
    ∧ length status = 3%nat
    ∧ Pd.getitem df' "HMDB_id" = Pd.getitem ids_df "HMDB_id".
Proof.
  destruct (proj2 (@add_status_to_df_frame sample_web ids_df "HMDB_id"
                     sample_start)
              _ ltac:(by repeat constructor) eq_refl)
    as (df' & status & s' & Hrun & Hidx & _ & Hget & Hlen & Hother).
  exists df', status, s'. split; [exact Hrun|]. split; [exact Hidx|].
  split; [exact Hget|]. split; [exact Hlen|]. by apply Hother.
Defined.

Lemma hmdb_pipeline_witness :
  ∃ (df1 df2 : DataFrame) (s1 s2 : @state refusing_web),
    @add_HMDBid_to_df refusing_web cas_df refusing_start = (Ok df1, s1)
    ∧ @add_status_to_df refusing_web df1 "HMDB_id" s1 = (Ok df2, s2)
    ∧ df_index df2 = [0; 1; 2]
    ∧ Pd.getitem df2 "casId_final" = Pd.getitem cas_df "casId_final".
Proof.
  destruct (@hmdb_pipeline refusing_web cas_df
              ["'50-00-0'"; "80-05-7"; "123-45-6"] refusing_start
              ltac:(by repeat constructor) eq_refl)
    as (df1 & df2 & s1 & s2 & ids & status & H1 & H2 & Hidx & Hcas & _).
  exists df1, df2, s1, s2. split; [exact H1|]. split; [exact H2|].
  split; [exact Hidx|exact Hcas].
Defined.

Lemma PubMed_before_first_request_witness :
  @PubMed_results_biomon_terms sample_web
    "https://pubmed.ncbi.nlm.nih.gov/?term=" df "No such column" None 4
    sample_start
  = (Ok [EStr "NA"; EStr "NA"; EStr "NA"; EStr "NA"], sample_start)
  ∧ @PubMed_results_biomon_terms sample_web
      "https://pubmed.ncbi.nlm.nih.gov/?term=" df "No such column" None 2
      sample_start
    = (Raised (Raise KeyError "'No such column'"), sample_start)
  ∧ @PubMed_results_biomon_terms sample_web
      "https://pubmed.ncbi.nlm.nih.gov/?term=" holed_df "CAS Number" None 1
      sample_start
    = (Raised (Raise AttributeError
                 "'NoneType' object has no attribute 'replace'"), sample_start).
Proof.
  split; [|split].
  - apply (proj1 (@PubMed_before_first_request sample_web
                    "https://pubmed.ncbi.nlm.nih.gov/?term=" "No such column"
                    None 4 df sample_start)).
    repeat constructor; lia.
  - apply (proj1 (proj2 (@PubMed_before_first_request sample_web
                    "https://pubmed.ncbi.nlm.nih.gov/?term=" "No such column"
                    None 2 df sample_start)
                   (take 2 (Pd.iterrows df)) 2 (Pd.row_at (df_columns df) 2)
                   (drop 3 (Pd.iterrows df)) eq_refl
                   ltac:(repeat constructor; cbn; lia) ltac:(lia))).
    reflexivity.
  - apply (proj2 (proj2 (@PubMed_before_first_request sample_web
                    "https://pubmed.ncbi.nlm.nih.gov/?term=" "CAS Number"
                    None 1 holed_df sample_start)
                   (take 1 (Pd.iterrows holed_df)) 1
                   (Pd.row_at (df_columns holed_df) 1)
                   (drop 2 (Pd.iterrows holed_df)) eq_refl
                   ltac:(repeat constructor; cbn; lia) ltac:(lia))).
    reflexivity.
Defined.



Lemma fetch_HMDB_status_is_stripped_witness :
  ∃ status : string,
    (@fetch_HMDB_status sample_web (CStr "HMDB0002111") sample_start).1
      = Ok status
    ∧ status = "Detected and Quantified".
Proof.
  destruct (@fetch_HMDB_status_is_stripped sample_web (CStr "HMDB0002111")
              sample_start
              (MkResponse 200 (hmdb_url (CStr "HMDB0002111"))
                 (hmdb_url (CStr "HMDB0002111")))
              1%nat
              (Bs.MkTag "th" [] [Bs.NavigableString "Status"]
                 [Bs.NavigableString " ";
                  Bs.Tag "td" [] [Bs.NavigableString " Detected and Quantified "]])
              (Bs.MkTag "td" [] [Bs.NavigableString " Detected and Quantified "] [])
              eq_refl ltac:(cbn; lia) eq_refl eq_refl)
    as (status & Hrun & Hstatus & _).
  exists status. split; [exact Hrun|]. rewrite Hstatus. reflexivity.
Defined.

(** ** Runs over frames with default labels *)

(** C5 at the frame that [find_invalid_cas] returns for the script's own
    example, when the one request times out.  The claim asks for
    ["TIMEOUT"] in the row's slot and for the loop to go on; the handler
    stores at position 2 of the one-slot list and the call raises
    [IndexError]. *)
Theorem PubMed_timeout_on_filtered_frame_raises :
  (@http_get sample_web
     (pubmed_url "https://pubmed.ncbi.nlm.nih.gov/?term=" None
                 "Fictional Compound")
     (Some 20) 2%nat).1
    = Raised (Raise Timeout "Read timed out.")
  ∧ Pd.iterrows invalid_cas_df
    = [(2, [("CAS Number", CStr "123-45-6");
            ("Chemical", CStr "Fictional Compound")])]
  ∧ @PubMed_results_biomon_terms sample_web
      "https://pubmed.ncbi.nlm.nih.gov/?term=" invalid_cas_df "Chemical"
      None 0 (@MkState sample_web 2%nat [])
    = (Raised (Raise IndexError "list assignment index out of range"),
       @MkState sample_web 3%nat
         [EvGet (pubmed_url "https://pubmed.ncbi.nlm.nih.gov/?term=" None
                            "Fictional Compound") (Some 20)]).
Proof. repeat split; reflexivity. Qed.

Section PubMedDefault.
Context `{W : Web}.
Variables (search_url NAME : string) (search_string : option string).

Local Abbreviation url := (pubmed_url search_url search_string).
Local Abbreviation get_event := (λ u : string, EvGet u (Some 20)).
Local Abbreviation run := (PubMed_results_biomon_terms search_url).
Local Abbreviation body := (PubMed_loop_body search_url NAME search_string).









End PubMedDefault.

(** ** The runs above on the sample data *)





